(** * so_deep/models.py: the convolutional classifier of SuperStyl

    A shallow embedding of [Encoder], [ConvEmbedding], [LinearDecoder] and
    [GoodWillHunting].  Python integers are [Z], Python floats that
    configure the model (the dropout probability) are rationals, tensor
    entries are real numbers (the usual idealisation of float32), a tensor is
    a shape together with its entries, exceptions are an error type, and the
    process-wide state the code touches (the random generator, the devices
    the machine offers) is threaded explicitly. *)

From Stdlib Require Import ZArith QArith Reals Qreals Lra Lia List Bool.
From stdpp Require Import gmap strings list fin_maps.

(** ** Exceptions and results *)

Inductive exn : Type :=
| AssertionError (msg : string)
| AttributeError (obj attr : string)
| TypeError (msg : string)
| UnboundLocalError (var : string)
| IndexError (msg : string)
| ValueError (msg : string)
| RuntimeError (msg : string)
| NotImplementedError.

Inductive result (A : Type) : Type :=
| Ok (a : A)
| Raise (e : exn).
Arguments Ok {A} a.
Arguments Raise {A} e.

Definition rbind {A B} (r : result A) (k : A -> result B) : result B :=
  match r with Ok a => k a | Raise e => Raise e end.

(** ** Tensors

    A tensor is its shape and its entries, read by multi-index.  Entries
    outside the shape carry no meaning. *)

Record tensor (A : Type) : Type := mkTensor {
  shape : list nat;
  elem : list nat -> A
}.
Arguments mkTensor {A} shape elem.
Arguments shape {A} t.
Arguments elem {A} t idx.

Definition numel (shp : list nat) : nat := fold_right Nat.mul 1 shp.

(** Row-major position of a multi-index, and back. *)
Fixpoint ravel (shp idx : list nat) : nat :=
  match shp, idx with
  | _ :: ds, i :: js => i * numel ds + ravel ds js
  | _, _ => 0
  end.

Fixpoint unravel (shp : list nat) (k : nat) : list nat :=
  match shp with
  | [] => []
  | _ :: ds => k / numel ds :: unravel ds (k mod numel ds)
  end.

(** Every multi-index of a shape, in row-major order. *)
Fixpoint indices (shp : list nat) : list (list nat) :=
  match shp with
  | [] => [[]]
  | d :: ds => flat_map (fun i => map (cons i) (indices ds)) (seq 0 d)
  end.

Definition Rsum (n : nat) (f : nat -> R) : R :=
  fold_right (fun k acc => (f k + acc)%R) 0%R (seq 0 n).

Definition Qltb (a b : Q) : bool := negb (Qle_bool b a).

(** ** The process state

    [torch]'s default generator is an oracle here: [uniform g k] is the
    [k]-th number it hands out, [pos] is how many were consumed.  Which
    device tags [Tensor.to] accepts depends on the machine.  [scored] is
    what a recording scorer has been handed so far. *)

Record Generator : Type := mkGenerator {
  uniform : nat -> Q;
  pos : nat
}.

Definition batch : Type := (tensor Z * tensor Z * tensor Z)%type.

Record World : Type := mkWorld {
  rng : Generator;
  device_usable : string -> bool;
  scored : list batch
}.

Definition advance (n : nat) (w : World) : World :=
  {| rng := {| uniform := uniform (rng w); pos := pos (rng w) + n |};
     device_usable := device_usable w;
     scored := scored w |}.

(** A computation may raise, and what it did to the world before raising
    stays done. *)
Definition M (A : Type) : Type := World -> result A * World.

Definition ret {A} (a : A) : M A := fun w => (Ok a, w).
Definition raise {A} (e : exn) : M A := fun w => (Raise e, w).
Definition bind {A B} (m : M A) (k : A -> M B) : M B :=
  fun w => match m w with
           | (Ok a, w') => k a w'
           | (Raise e, w') => (Raise e, w')
           end.
Definition lift {A} (r : result A) : M A := fun w => (r, w).

Declare Scope py_scope.
Delimit Scope py_scope with py.
Notation "x <- c1 ;; c2" := (bind c1 (fun x => c2))
  (at level 100, c1 at next level, right associativity) : py_scope.
Notation "c1 ;;; c2" := (bind c1 (fun _ => c2))
  (at level 100, right associativity) : py_scope.

(** ** The [torch] operations the module calls

    Shapes, entries and the conditions under which the library raises follow
    its documentation.  Device placement of tensor data and memory layout
    (strides, contiguity) are outside the model. *)

Definition init_idx (idx : list nat) : list nat := List.removelast idx.
Definition last_idx (idx : list nat) : nat := List.last idx 0.

(** A freshly allocated parameter: its initial entries are whatever the
    generator hands out next. *)
Definition fresh (shp : list nat) : M (tensor R) :=
  fun w =>
    (Ok {| shape := shp;
           elem := fun idx => Q2R (uniform (rng w) (pos (rng w) + ravel shp idx)) |},
     advance (numel shp) w).

(** [Tensor.to(device)] *)
Definition to {A} (x : tensor A) (device : string) : M (tensor A) :=
  fun w =>
    if device_usable w device then (Ok x, w)
    else (Raise (RuntimeError "invalid or unavailable device"), w).

(** [torch.ones(n)] *)
Definition ones (n : Z) : result (tensor R) :=
  if (n <? 0)%Z
  then Raise (RuntimeError "Trying to create tensor with negative dimension")
  else Ok {| shape := [Z.to_nat n]; elem := fun _ => 1%R |}.

(** Whether a shape is that of a vector of [n] entries. *)
Definition is_vector (shp : list nat) (n : nat) : bool :=
  match shp with
  | [m] => m =? n
  | _ => false
  end.

(** *** [nn.Embedding] *)
Record Embedding : Type := mkEmbedding { emb_weight : tensor R }.

Definition nn_Embedding (num_embeddings embedding_dim : Z) : M Embedding :=
  if ((num_embeddings <? 0) || (embedding_dim <? 0))%Z
  then raise (RuntimeError "Trying to create tensor with negative dimension")
  else (w <- fresh [Z.to_nat num_embeddings; Z.to_nat embedding_dim] ;;
        ret {| emb_weight := w |})%py.

(** Whether every entry of an index tensor is a row of a table of [V] rows. *)
Definition in_vocabulary (input : tensor Z) (V : nat) : bool :=
  forallb (fun idx => (0 <=? elem input idx)%Z && (elem input idx <? Z.of_nat V)%Z)
          (indices (shape input)).

Definition Embedding_forward (e : Embedding) (input : tensor Z) : result (tensor R) :=
  match shape (emb_weight e) with
  | [V; E] =>
      if in_vocabulary input V
      then Ok {| shape := shape input ++ [E];
                 elem := fun idx =>
                   elem (emb_weight e)
                        [Z.to_nat (elem input (init_idx idx)); last_idx idx] |}
      else Raise (IndexError "index out of range in self")
  | _ => Raise (RuntimeError "'weight' must be 2-D")
  end.

(** *** [nn.Linear] *)
Record Linear : Type := mkLinear { lin_weight : tensor R; lin_bias : tensor R }.

Definition nn_Linear (in_features out_features : Z) : M Linear :=
  if ((in_features <? 0) || (out_features <? 0))%Z
  then raise (RuntimeError "Trying to create tensor with negative dimension")
  else (w <- fresh [Z.to_nat out_features; Z.to_nat in_features] ;;
        b <- fresh [Z.to_nat out_features] ;;
        ret {| lin_weight := w; lin_bias := b |})%py.

(** The affine map on the last axis: entry [idx ++ [o]] of the output is
    [sum_k x[idx ++ [k]] * W[o, k] + b[o]]. *)
Definition affine (W b x : tensor R) (n_in : nat) (idx : list nat) : R :=
  (Rsum n_in (fun k => elem x (init_idx idx ++ [k]) * elem W [last_idx idx; k])
   + elem b [last_idx idx])%R.

Definition Linear_forward (l : Linear) (x : tensor R) : result (tensor R) :=
  match shape (lin_weight l), shape x with
  | [n_out; n_in], _ :: _ =>
      if negb (List.last (shape x) 0 =? n_in)
      then Raise (RuntimeError "mat1 and mat2 shapes cannot be multiplied")
      else if negb (is_vector (shape (lin_bias l)) n_out)
      then Raise (RuntimeError "The expanded size of the tensor must match the existing size")
      else Ok {| shape := List.removelast (shape x) ++ [n_out];
                 elem := affine (lin_weight l) (lin_bias l) x n_in |}
  | _, _ => Raise (RuntimeError "both arguments to linear need to be at least 1D")
  end.

(** *** [nn.Conv1d], stride 1, dilation 1, one group, zero padding *)
Record Conv1d : Type := mkConv1d {
  conv_weight : tensor R;
  conv_bias : tensor R;
  conv_padding : Z
}.

Definition nn_Conv1d (in_channels out_channels kernel_size padding : Z) : M Conv1d :=
  if ((in_channels <? 0) || (out_channels <? 0) || (kernel_size <? 0))%Z
  then raise (RuntimeError "Trying to create tensor with negative dimension")
  else (w <- fresh [Z.to_nat out_channels; Z.to_nat in_channels; Z.to_nat kernel_size] ;;
        b <- fresh [Z.to_nat out_channels] ;;
        ret {| conv_weight := w; conv_bias := b; conv_padding := padding |})%py.

(** The input of one channel at time [t] of the zero-padded sequence. *)
Definition padded (x : nat -> R) (P L t : nat) : R :=
  if (P <=? t) && (t <? P + L) then x (t - P) else 0%R.

Definition conv_entry (W b : tensor R) (x : nat -> nat -> R)
    (Cin K P L o l : nat) : R :=
  (Rsum Cin (fun ci => Rsum K (fun j => elem W [o; ci; j] * padded (x ci) P L (l + j)))
   + elem b [o])%R.

Definition conv_checks (c : Conv1d) (Cout Cin K C L : nat) : result unit :=
  if (conv_padding c <? 0)%Z
  then Raise (RuntimeError "negative padding is not supported")
  else if Cout <? 1
  then Raise (RuntimeError "expected weight to be at least 1 at dimension 0")
  else if negb (C =? Cin)
  then Raise (RuntimeError "input has the wrong number of channels")
  else if negb (is_vector (shape (conv_bias c)) Cout)
  then Raise (RuntimeError "expected bias to be 1-dimensional with one entry per output channel")
  else if L + 2 * Z.to_nat (conv_padding c) <? K
  then Raise (RuntimeError "Kernel size can't be greater than actual input size")
  else Ok tt.

Definition Conv1d_forward (c : Conv1d) (x : tensor R) : result (tensor R) :=
  let P := Z.to_nat (conv_padding c) in
  match shape (conv_weight c), shape x with
  | [Cout; Cin; K], [N; C; L] =>
      rbind (conv_checks c Cout Cin K C L) (fun _ =>
      Ok {| shape := [N; Cout; L + 2 * P - K + 1];
            elem := fun idx =>
              match idx with
              | [n; o; l] =>
                  conv_entry (conv_weight c) (conv_bias c)
                             (fun ci t => elem x [n; ci; t]) Cin K P L o l
              | _ => 0%R
              end |})
  | [Cout; Cin; K], [C; L] =>
      rbind (conv_checks c Cout Cin K C L) (fun _ =>
      Ok {| shape := [Cout; L + 2 * P - K + 1];
            elem := fun idx =>
              match idx with
              | [o; l] =>
                  conv_entry (conv_weight c) (conv_bias c)
                             (fun ci t => elem x [ci; t]) Cin K P L o l
              | _ => 0%R
              end |})
  | _, _ => Raise (RuntimeError "Expected 2D (unbatched) or 3D (batched) input to conv1d")
  end.

(** *** [nn.Dropout]

    In evaluation mode, with [p = 0] or on an empty tensor the input is
    returned as it is; with [p = 1] everything is zeroed; otherwise each
    entry is kept with probability [1 - p], by the generator's next draws,
    and the kept entries are divided by [1 - p]. *)
Record Dropout : Type := mkDropout { drop_p : Q; drop_training : bool }.

Definition nn_Dropout (p : Q) : M Dropout :=
  if Qle_bool 0 p && Qle_bool p 1
  then ret {| drop_p := p; drop_training := true |}
  else raise (ValueError "dropout probability has to be between 0 and 1").

(** Whether the layer leaves the generator alone whatever its input. *)
Definition dropout_inactive (d : Dropout) : bool :=
  negb (drop_training d) || Qeq_bool (drop_p d) 0 || Qeq_bool (drop_p d) 1.

Definition Dropout_forward (d : Dropout) (x : tensor R) : M (tensor R) :=
  if negb (drop_training d) || Qeq_bool (drop_p d) 0 || (numel (shape x) =? 0)
  then ret x
  else if Qeq_bool (drop_p d) 1
  then ret {| shape := shape x; elem := fun _ => 0%R |}
  else fun w =>
    (Ok {| shape := shape x;
           elem := fun idx =>
             if Qltb (uniform (rng w) (pos (rng w) + ravel (shape x) idx)) (1 - drop_p d)
             then (elem x idx / Q2R (1 - drop_p d))%R
             else 0%R |},
     advance (numel (shape x)) w).

(** *** [F.glu], sum and product, [permute], [argmax], [view], [tolist] *)
Definition sigmoid (z : R) : R := (/ (1 + exp (- z)))%R.

Definition glu (x : tensor R) (dim : nat) : result (tensor R) :=
  match shape x !! dim with
  | None => Raise (IndexError "Dimension out of range")
  | Some d =>
      if Nat.even d
      then Ok {| shape := <[dim := d / 2]> (shape x);
                 elem := fun idx =>
                   (elem x idx * sigmoid (elem x (alter (Nat.add (d / 2)) dim idx)))%R |}
      else Raise (RuntimeError "Halving dimension must be even")
  end.

(** Broadcasting aligns shapes at the last axis; an axis of size 1
    stretches. *)
Fixpoint broadcast_rev (a b : list nat) : option (list nat) :=
  match a, b with
  | [], _ => Some b
  | _, [] => Some a
  | x :: a', y :: b' =>
      if (x =? y) || (y =? 1) then cons x <$> broadcast_rev a' b'
      else if x =? 1 then cons y <$> broadcast_rev a' b'
      else None
  end.

Definition broadcast_shapes (a b : list nat) : option (list nat) :=
  match broadcast_rev (List.rev a) (List.rev b) with
  | Some s => Some (List.rev s)
  | None => None
  end.

Definition bcast_idx (shp idx : list nat) : list nat :=
  zip_with (fun d i => if d =? 1 then 0 else i) shp
           (drop (length idx - length shp) idx).

Definition pointwise (f : R -> R -> R) (x y : tensor R) : result (tensor R) :=
  match broadcast_shapes (shape x) (shape y) with
  | Some s =>
      Ok {| shape := s;
            elem := fun idx => f (elem x (bcast_idx (shape x) idx))
                                 (elem y (bcast_idx (shape y) idx)) |}
  | None => Raise (RuntimeError "The size of tensor a must match the size of tensor b")
  end.

Definition add : tensor R -> tensor R -> result (tensor R) := pointwise Rplus.
Definition mul : tensor R -> tensor R -> result (tensor R) := pointwise Rmult.

Fixpoint index_of (j : nat) (l : list nat) : nat :=
  match l with
  | [] => 0
  | x :: r => if x =? j then 0 else S (index_of j r)
  end.

Definition is_axis_order (dims : list nat) (rank : nat) : bool :=
  (length dims =? rank)
  && forallb (fun j => existsb (Nat.eqb j) dims) (seq 0 rank).

Definition permute {A} (x : tensor A) (dims : list nat) : result (tensor A) :=
  if is_axis_order dims (length (shape x))
  then Ok {| shape := map (fun d => nth d (shape x) 0) dims;
             elem := fun idx =>
               elem x (map (fun j => nth (index_of j dims) idx 0)
                           (seq 0 (length (shape x)))) |}
  else Raise (RuntimeError "permute: the ordering does not match the dimensions of the input").

(** The first position at which [f] is largest among [0 .. n]. *)
Definition argmax_upto (f : nat -> R) (n : nat) : nat :=
  fold_left (fun best k => if Rlt_dec (f best) (f k) then k else best) (seq 1 n) 0.

(** The positions of the largest entries along axis [dim], of size [n + 1]. *)
Definition argmax_along (x : tensor R) (dim n : nat) : tensor Z :=
  {| shape := delete dim (shape x);
     elem := fun idx =>
       Z.of_nat (argmax_upto (fun k => elem x (take dim idx ++ k :: drop dim idx)) n) |}.

Definition argmax (x : tensor R) (dim : nat) : result (tensor Z) :=
  match shape x !! dim with
  | None => Raise (IndexError "Dimension out of range")
  | Some 0 => Raise (IndexError "argmax(): Expected reduction dim to have non-zero size")
  | Some (S n) => Ok (argmax_along x dim n)
  end.

Definition Zprod (l : list Z) : Z := fold_right Z.mul 1%Z l.

Definition reshape {A} (x : tensor A) (shp : list nat) : tensor A :=
  {| shape := shp; elem := fun idx => elem x (unravel (shape x) (ravel shp idx)) |}.

(** *** Memory layout and [Tensor.view]

    A tensor a caller holds has its entries and the strides of its memory
    layout.  Only [view] consults the strides: it lays the requested shape
    over the same memory and refuses when that cannot be done without a
    copy.  The tensors the layers return are freshly allocated, hence
    contiguous. *)
Fixpoint contiguous_strides (shp : list nat) : list nat :=
  match shp with
  | [] => []
  | _ :: rest => numel rest :: contiguous_strides rest
  end.

Record strided (A : Type) : Type := mkStrided {
  values : tensor A;
  strides : list nat
}.
Arguments mkStrided {A} values strides.
Arguments values {A} s.
Arguments strides {A} s.

Definition contiguous {A} (x : tensor A) : strided A :=
  {| values := x; strides := contiguous_strides (shape x) |}.

(** The stride computation of [view], last axis first.  [consume] takes
    requested sizes while they fit in the current chunk of the tensor;
    [merge_chunks] closes a chunk where the next axis of the tensor does not
    continue it in memory, and requires the sizes taken so far to fill the
    chunk exactly. *)
Fixpoint consume (view_dims : list nat) (view_numel tensor_numel : nat)
    : list nat * nat :=
  match view_dims with
  | [] => ([], view_numel)
  | d :: rest =>
      if (view_numel <? tensor_numel) || (d =? 1)
      then consume rest (view_numel * d) tensor_numel
      else (view_dims, view_numel)
  end.

Fixpoint merge_chunks (dims : list (nat * nat)) (view_dims : list nat)
    (chunk_base_stride tensor_numel view_numel : nat) : bool :=
  match dims with
  | [] => match view_dims with [] => true | _ :: _ => false end
  | (size, _) :: before =>
      let tensor_numel := tensor_numel * size in
      let chunk_ends :=
        match before with
        | [] => true
        | (size', stride') :: _ =>
            negb (size' =? 1) && negb (stride' =? tensor_numel * chunk_base_stride)
        end in
      if chunk_ends
      then
        let '(view_dims', view_numel') := consume view_dims view_numel tensor_numel in
        if view_numel' =? tensor_numel
        then match before with
             | [] => match view_dims' with [] => true | _ :: _ => false end
             | (_, stride') :: _ => merge_chunks before view_dims' stride' 1 1
             end
        else false
      else merge_chunks before view_dims chunk_base_stride tensor_numel view_numel
  end.

Definition viewable (old_shape old_strides new_shape : list nat) : bool :=
  match old_shape with
  | [] => true
  | _ :: _ =>
      if numel old_shape =? 0 then true
      else merge_chunks (List.rev (combine old_shape old_strides)) (List.rev new_shape)
                        (List.last old_strides 0) 1 1
  end.

(** A layout read last axis first in which every stride is the number of
    entries of the axes behind it, [tn] entries being behind the first. *)
Fixpoint stride_chain (tn : nat) (dims : list (nat * nat)) : Prop :=
  match dims with
  | [] => True
  | (size, stride) :: before => stride = tn /\ stride_chain (tn * size) before
  end.

Definition sizes_product (dims : list (nat * nat)) : nat := numel (map fst dims).

(** The shape a list of sizes stands for on [n] entries: at most one of the
    sizes may be [-1], and is inferred. *)
Definition inferred_shape (n : Z) (sizes : list Z) : result (list nat) :=
  let known := Zprod (List.filter (fun s => negb (s =? -1)%Z) sizes) in
  if existsb (fun s => (s <? -1)%Z) sizes
  then Raise (RuntimeError "invalid shape dimension")
  else match length (List.filter (fun s => (s =? -1)%Z) sizes) with
       | 0 =>
           if (known =? n)%Z then Ok (map Z.to_nat sizes)
           else Raise (RuntimeError "shape is invalid for input size")
       | 1 =>
           if (known =? 0)%Z
           then Raise (RuntimeError "the unspecified dimension size -1 cannot be inferred")
           else if (n mod known =? 0)%Z
           then Ok (map (fun s => if (s =? -1)%Z then Z.to_nat (n / known)
                                  else Z.to_nat s) sizes)
           else Raise (RuntimeError "shape is invalid for input size")
       | _ => Raise (RuntimeError "only one dimension can be inferred")
       end.

(** [Tensor.view] *)
Definition view {A} (x : strided A) (sizes : list Z) : result (tensor A) :=
  rbind (inferred_shape (Z.of_nat (numel (shape (values x)))) sizes) (fun shp =>
    if viewable (shape (values x)) (strides x) shp
    then Ok (reshape (values x) shp)
    else Raise (RuntimeError
                  "view size is not compatible with input tensor's size and stride")).

(** The Python values met outside tensors. *)
#[warnings="-register-all"]
Inductive pyobj : Type :=
| PyNone
| PyInt (z : Z)
| PyStr (s : string)
| PyList (l : list pyobj).

Fixpoint tolist_at (shp : list nat) (get : list nat -> Z) : pyobj :=
  match shp with
  | [] => PyInt (get [])
  | d :: ds => PyList (map (fun i => tolist_at ds (fun idx => get (i :: idx))) (seq 0 d))
  end.

Definition tolist (x : tensor Z) : pyobj := tolist_at (shape x) (elem x).

Fixpoint mapM {A B} (f : A -> M B) (l : list A) : M (list B) :=
  match l with
  | [] => ret []
  | a :: r => (b <- f a ;; bs <- mapM f r ;; ret (b :: bs))%py
  end.

(** [range(n)] *)
Definition range (n : Z) : list Z := map Z.of_nat (seq 0 (Z.to_nat n)).

(** ** class Encoder *)
Module Encoder.

Record t : Type := mk { input_dim : Z; device : string }.

Definition __init__ (input_dim : Z) (device : string) : M t :=
  ret {| input_dim := input_dim; device := device |}.

End Encoder.

(** ** class ConvEmbedding(Encoder) *)
Module ConvEmbedding.

Record t : Type := mk {
  input_dim : Z;
  device : string;
  emb_dim : Z;
  hid_dim : Z;
  kernel_size : Z;
  scale : tensor R;
  tok_embedding : Embedding;
  emb2hid : Linear;
  hid2emb : Linear;
  convs : list Conv1d;
  dropout : Dropout
}.

(** [torch.sqrt(torch.FloatTensor([0.5]))] *)
Definition sqrt_half : tensor R :=
  {| shape := [1]; elem := fun _ => sqrt (1 / 2) |}.

Definition __init__ (input_dim : Z) (device : string)
    (emb_dim hid_dim n_layers kernel_size : Z) (dropout : Q) : M t :=
  (base <- Encoder.__init__ input_dim device ;;
   if negb (kernel_size mod 2 =? 1)%Z
   then raise (AssertionError "Kernel size must be odd!")
   else
     scale <- to sqrt_half (Encoder.device base) ;;
     tok_embedding <- nn_Embedding input_dim emb_dim ;;
     emb2hid <- nn_Linear emb_dim hid_dim ;;
     hid2emb <- nn_Linear hid_dim emb_dim ;;
     convs <- mapM (fun _ => nn_Conv1d hid_dim (2 * hid_dim) kernel_size
                                       ((kernel_size - 1) / 2))
                   (range n_layers) ;;
     dropout <- nn_Dropout dropout ;;
     ret {| input_dim := Encoder.input_dim base;
            device := Encoder.device base;
            emb_dim := emb_dim;
            hid_dim := hid_dim;
            kernel_size := kernel_size;
            scale := scale;
            tok_embedding := tok_embedding;
            emb2hid := emb2hid;
            hid2emb := hid2emb;
            convs := convs;
            dropout := dropout |})%py.

(** The body of the loop over [self.convs]; it leaves the new value of
    both [conved] and [conv_input]. *)
Definition conv_block (self : t) (conv : Conv1d) (conv_input : tensor R)
    : M (tensor R) :=
  (dropped <- Dropout_forward (dropout self) conv_input ;;
   conved <- lift (Conv1d_forward conv dropped) ;;
   conved <- lift (glu conved 1) ;;
   summed <- lift (add conved conv_input) ;;
   conved <- lift (mul summed (scale self)) ;;
   ret conved)%py.

(** The loop: [conved] is a local variable that is unbound until the
    first iteration has run. *)
Fixpoint conv_loop (self : t) (layers : list Conv1d)
    (conved : option (tensor R)) (conv_input : tensor R)
    : M (option (tensor R) * tensor R) :=
  match layers with
  | [] => ret (conved, conv_input)
  | conv :: rest =>
      (c <- conv_block self conv conv_input ;;
       conv_loop self rest (Some c) c)%py
  end.

Definition forward (self : t) (src : tensor Z) : M (tensor R) :=
  (tok_embedded <- lift (Embedding_forward (tok_embedding self) src) ;;
   embedded <- Dropout_forward (dropout self) tok_embedded ;;
   conv_input <- lift (Linear_forward (emb2hid self) embedded) ;;
   conv_input <- lift (permute conv_input [0; 2; 1]) ;;
   locals <- conv_loop self (convs self) None conv_input ;;
   match fst locals with
   | None => raise (UnboundLocalError "conved")
   | Some conved =>
       back <- lift (permute conved [0; 2; 1]) ;;
       lift (Linear_forward (hid2emb self) back)
   end)%py.

(** The state a constructed encoder is in, and stays in while an
    optimizer changes the entries of its parameters but not their shapes. *)
Definition conv_layer_ok (self : t) (c : Conv1d) : Prop :=
  shape (conv_weight c)
  = [Z.to_nat (2 * hid_dim self); Z.to_nat (hid_dim self); Z.to_nat (kernel_size self)]
  /\ shape (conv_bias c) = [Z.to_nat (2 * hid_dim self)]
  /\ conv_padding c = ((kernel_size self - 1) / 2)%Z
  /\ (0 <= kernel_size self)%Z.

Record well_formed (self : t) : Prop := {
  wf_kernel : (kernel_size self mod 2 = 1)%Z;
  wf_scale : shape (scale self) = [1];
  wf_embedding :
    shape (emb_weight (tok_embedding self))
    = [Z.to_nat (input_dim self); Z.to_nat (emb_dim self)];
  wf_emb2hid_weight :
    shape (lin_weight (emb2hid self))
    = [Z.to_nat (hid_dim self); Z.to_nat (emb_dim self)];
  wf_emb2hid_bias : shape (lin_bias (emb2hid self)) = [Z.to_nat (hid_dim self)];
  wf_hid2emb_weight :
    shape (lin_weight (hid2emb self))
    = [Z.to_nat (emb_dim self); Z.to_nat (hid_dim self)];
  wf_hid2emb_bias : shape (lin_bias (hid2emb self)) = [Z.to_nat (emb_dim self)];
  wf_convs : Forall (conv_layer_ok self) (convs self)
}.

End ConvEmbedding.

(** ** class LinearDecoder *)
Module LinearDecoder.

(** [__init__] assigns [out_dim], [highway], [decoder] and [relu].  A Python
    instance stays open: [extra] holds what a caller assigned on it
    afterwards, and a name found in neither is an [AttributeError]. *)
Record t : Type := mk {
  out_dim : Z;
  highway : option (tensor R -> M (tensor R));
  decoder : Linear;
  relu : bool;
  extra : gmap string pyobj
}.

Definition __init__ (enc_dim out_dim : Z) (highway_layers : Z)
    (highway_act : string) : M t :=
  (decoder <- nn_Linear enc_dim out_dim ;;
   ret {| out_dim := out_dim;
          highway := None;
          decoder := decoder;
          relu := true;
          extra := ∅ |})%py.

(** [self.<name>] for a name [__init__] does not assign. *)
Definition getattr (self : t) (name : string) : result pyobj :=
  match extra self !! name with
  | Some v => Ok v
  | None => Raise (AttributeError "LinearDecoder" name)
  end.

(** [self.<name> = v], from outside the class *)
Definition setattr (self : t) (name : string) (v : pyobj) : t :=
  {| out_dim := out_dim self;
     highway := highway self;
     decoder := decoder self;
     relu := relu self;
     extra := <[name := v]> (extra self) |}.

Definition forward (self : t) (enc_outs : tensor R) : M (tensor R) :=
  (enc_outs <- match highway self with
               | Some h => h enc_outs
               | None => ret enc_outs
               end ;;
   linear_out <- lift (Linear_forward (decoder self) enc_outs) ;;
   ret linear_out)%py.

(** A decoder as [__init__] leaves it for the widths [enc_dim] and
    [out_dim], whatever the entries of its weights have become. *)
Definition configured (enc_dim out_dim : Z) (self : t) : Prop :=
  LinearDecoder.out_dim self = out_dim
  /\ highway self = None
  /\ shape (lin_weight (decoder self)) = [Z.to_nat out_dim; Z.to_nat enc_dim]
  /\ shape (lin_bias (decoder self)) = [Z.to_nat out_dim].

End LinearDecoder.

(** What may stand where an [Encoder] is expected: the base class, whose
    [forward] is [nn.Module]'s and raises, or the convolutional encoder. *)
Inductive encoder : Type :=
| BaseEncoder (e : Encoder.t)
| ConvEncoder (c : ConvEmbedding.t).

Definition encoder_device (e : encoder) : string :=
  match e with
  | BaseEncoder b => Encoder.device b
  | ConvEncoder c => ConvEmbedding.device c
  end.

Definition encoder_call (e : encoder) (src : tensor Z) : M (tensor R) :=
  match e with
  | BaseEncoder _ => raise NotImplementedError
  | ConvEncoder c => ConvEmbedding.forward c src
  end.

(** Keyword arguments a call passes beyond those the signature can take. *)
Definition bind_keywords (fname : string) (accepted : list string)
    (kwargs : list (string * pyobj)) : result unit :=
  match List.find (fun kv => negb (existsb (String.eqb (fst kv)) accepted)) kwargs with
  | Some kv =>
      Raise (TypeError (fname ++ "() got an unexpected keyword argument '" ++ fst kv ++ "'"))
  | None => Ok tt
  end.

(** [dict.get(key, default)] on a dictionary keyed by integers: a list is
    not hashable. *)
Definition dict_get (d : gmap Z string) (key : pyobj) (dflt : string) : result string :=
  match key with
  | PyInt k => Ok (default dflt (d !! k))
  | PyList _ => Raise (TypeError "unhashable type: 'list'")
  | PyNone | PyStr _ => Ok dflt
  end.

(** The collaborators of [train_epoch]. *)
Record Scorer : Type := mkScorer {
  register_batch : tensor Z -> tensor Z -> tensor Z -> M unit
}.

Definition Criterion : Type := tensor R -> tensor Z -> M R.

(** ** class GoodWillHunting *)
Module GoodWillHunting.

Record t : Type := mk {
  encoder_ : encoder;
  decoder : LinearDecoder.t;
  device : string;
  _buffers : gmap string (tensor R);
  _non_persistent_buffers_set : gset string
}.

Definition masked_only : bool := true.

(** [nn.Module.register_buffer(name, tensor)], persistent by default *)
Definition register_buffer (self : t) (name : string) (x : tensor R) : t :=
  {| encoder_ := encoder_ self;
     decoder := decoder self;
     device := device self;
     _buffers := <[name := x]> (_buffers self);
     _non_persistent_buffers_set := _non_persistent_buffers_set self ∖ {[name]} |}.

(** The buffers [state_dict()] saves next to the parameters. *)
Definition saved_buffers (self : t) : gmap string (tensor R) :=
  filter (fun kv => kv.1 ∉ _non_persistent_buffers_set self) (_buffers self).

Definition same_device (v : pyobj) (device : string) : bool :=
  match v with
  | PyStr s => String.eqb s device
  | _ => false
  end.

Definition __init__ (enc : encoder) (categorizer : LinearDecoder.t)
    (device : string) : M t :=
  let self := {| encoder_ := enc; decoder := categorizer; device := device;
                 _buffers := ∅; _non_persistent_buffers_set := ∅ |} in
  (if negb (String.eqb (encoder_device (encoder_ self)) (GoodWillHunting.device self))
   then raise (AssertionError "All devices should be the same !")
   else
     decoder_device <- lift (LinearDecoder.getattr (decoder self) "device") ;;
     if negb (same_device decoder_device (GoodWillHunting.device self))
     then raise (AssertionError "All devices should be the same !")
     else
       nll_weight <- lift (ones (LinearDecoder.out_dim categorizer)) ;;
       ret (register_buffer self "nll_weight" nll_weight))%py.

Definition forward (self : t) (src : tensor Z) : M (tensor R) :=
  (encoder_out <- encoder_call (encoder_ self) src ;;
   classifier_out <- LinearDecoder.forward (decoder self) encoder_out ;;
   ret classifier_out)%py.

(** [self(src, **kwargs)]: [nn.Module.__call__] hands its arguments to
    [forward], whose only parameter [src] is already bound by position. *)
Definition __call__ (self : t) (src : tensor Z) (kwargs : list (string * pyobj))
    : M (tensor R) :=
  (lift (bind_keywords "forward" [] kwargs) ;;;
   forward self src)%py.

(** [predict] after the call of the model has returned [out].  The
    [torch.cuda.device_of] block only selects the current CUDA device and
    has no part in the value. *)
Definition predict_labels (out : tensor R) (classnames : gmap Z string)
    : M (list string) :=
  (logits <- lift (argmax out 2) ;;
   match tolist logits with
   | PyList out_as_list =>
       mapM (fun item => lift (dict_get classnames item "WTF ?")) out_as_list
   | _ => raise (TypeError "object is not iterable")
   end)%py.

Definition predict (self : t) (src : tensor Z) (classnames : gmap Z string)
    : M (list string) :=
  (out <- __call__ self src [("out", PyNone)] ;;
   predict_labels out classnames)%py.

(** [trg] comes from the caller with the layout it has; the scores are the
    result of the decoder's linear layer, which allocates it. *)
Definition train_epoch (self : t) (src : tensor Z) (trg : strided Z)
    (scorer : option Scorer) (criterion : option Criterion) : M R :=
  (output <- __call__ self src [] ;;
   bound_register <- match scorer with
                     | Some s => ret (register_batch s)
                     | None => raise (AttributeError "NoneType" "register_batch")
                     end ;;
   predicted <- lift (argmax output 2) ;;
   bound_register predicted (values trg) src ;;;
   flat_out <- lift (view (contiguous output)
                          [(-1)%Z; LinearDecoder.out_dim (decoder self)]) ;;
   flat_trg <- lift (view trg [(-1)%Z]) ;;
   match criterion with
   | Some compute => compute flat_out flat_trg
   | None => raise (TypeError "'NoneType' object is not callable")
   end)%py.

(** [self.training] where it matters: the flag of the one sub-module whose
    behaviour depends on it, set at construction and cleared by [eval()]. *)
Definition training (self : t) : bool :=
  match encoder_ self with
  | BaseEncoder _ => false
  | ConvEncoder c => drop_training (ConvEmbedding.dropout c)
  end.

(** Whether no sub-module draws randomness: evaluation mode, or a dropout
    probability of 0 or 1. *)
Definition deterministic (self : t) : bool :=
  match encoder_ self with
  | BaseEncoder _ => true
  | ConvEncoder c => dropout_inactive (ConvEmbedding.dropout c)
  end.

Definition vocabulary (self : t) : nat :=
  match encoder_ self with
  | BaseEncoder e => Z.to_nat (Encoder.input_dim e)
  | ConvEncoder c => Z.to_nat (ConvEmbedding.input_dim c)
  end.

(** A convolutional encoder with at least one layer feeding a decoder of
    matching width with at least one class. *)
Definition well_formed (self : t) : Prop :=
  exists enc,
    encoder_ self = ConvEncoder enc
    /\ ConvEmbedding.well_formed enc
    /\ ConvEmbedding.convs enc <> []
    /\ (1 <= ConvEmbedding.hid_dim enc)%Z
    /\ LinearDecoder.configured (ConvEmbedding.emb_dim enc)
                                (LinearDecoder.out_dim (decoder self)) (decoder self)
    /\ (1 <= LinearDecoder.out_dim (decoder self))%Z.

(** The calls a client can make on a model.  No method assigns to an
    attribute of [self]: a call leaves the object as it found it and only
    moves the world on. *)
Inductive call : Type :=
| Forward (src : tensor Z)
| Predict (src : tensor Z) (classnames : gmap Z string)
| TrainEpoch (src : tensor Z) (trg : strided Z)
    (scorer : option Scorer) (criterion : option Criterion).

Definition run (self : t) (c : call) (w : World) : t * World :=
  match c with
  | Forward src => (self, snd (forward self src w))
  | Predict src classnames => (self, snd (predict self src classnames w))
  | TrainEpoch src trg scorer criterion =>
      (self, snd (train_epoch self src trg scorer criterion w))
  end.

Fixpoint run_all (self : t) (calls : list call) (w : World) : t * World :=
  match calls with
  | [] => (self, w)
  | c :: rest => let '(self', w') := run self c w in run_all self' rest w'
  end.

End GoodWillHunting.

(** A computation that neither reads nor changes the world. *)
Definition pure {A} (m : M A) : Prop := exists r, forall w, m w = (r, w).

(** ** Collaborators and small instances

    A scorer that only records what it is handed, [nn.NLLLoss] with
    [reduction='sum'] and no class weights, and a model small enough to
    follow by hand: one token in the vocabulary, width 1 everywhere, one
    convolution layer of kernel size 1 whose weights are zero. *)

Definition recording_scorer : Scorer :=
  {| register_batch := fun predicted trg src w =>
       (Ok tt, {| rng := rng w;
                  device_usable := device_usable w;
                  scored := scored w ++ [(predicted, trg, src)] |}) |}.

Definition NLLLoss_sum : Criterion := fun input target =>
  match shape input, shape target with
  | [N; C], [N'] =>
      if negb (N =? N')
      then raise (ValueError "Expected input batch_size to match target batch_size")
      else if negb (in_vocabulary target C)
      then raise (IndexError "Target is out of bounds")
      else ret (- Rsum N (fun i => elem input [i; Z.to_nat (elem target [i])]))%R
  | _, _ => raise (RuntimeError "expected scores of shape (N, C) and targets of shape (N)")
  end.

Definition constant {A} (shp : list nat) (v : A) : tensor A :=
  {| shape := shp; elem := fun _ => v |}.

Definition tiny_encoder (training : bool) : ConvEmbedding.t :=
  {| ConvEmbedding.input_dim := 1;
     ConvEmbedding.device := "cpu";
     ConvEmbedding.emb_dim := 1;
     ConvEmbedding.hid_dim := 1;
     ConvEmbedding.kernel_size := 1;
     ConvEmbedding.scale := ConvEmbedding.sqrt_half;
     ConvEmbedding.tok_embedding := {| emb_weight := constant [1; 1] 1%R |};
     ConvEmbedding.emb2hid :=
       {| lin_weight := constant [1; 1] 1%R; lin_bias := constant [1] 0%R |};
     ConvEmbedding.hid2emb :=
       {| lin_weight := constant [1; 1] 1%R; lin_bias := constant [1] 0%R |};
     ConvEmbedding.convs :=
       [ {| conv_weight := constant [2; 1; 1] 0%R;
            conv_bias := constant [2] 0%R;
            conv_padding := 0 |} ];
     ConvEmbedding.dropout := {| drop_p := 1 # 2; drop_training := training |} |}.


Definition plain_decoder : LinearDecoder.t :=
  {| LinearDecoder.out_dim := 1;
     LinearDecoder.highway := None;
     LinearDecoder.decoder :=
       {| lin_weight := constant [1; 1] 1%R; lin_bias := constant [1] 1%R |};
     LinearDecoder.relu := true;
     LinearDecoder.extra := ∅ |}.

(** The same decoder after a caller has run [decoder.device = "cpu"]. *)
Definition tiny_decoder : LinearDecoder.t :=
  LinearDecoder.setattr plain_decoder "device" (PyStr "cpu").

Definition tiny_model (training : bool) : GoodWillHunting.t :=
  {| GoodWillHunting.encoder_ := ConvEncoder (tiny_encoder training);
     GoodWillHunting.decoder := tiny_decoder;
     GoodWillHunting.device := "cpu";
     GoodWillHunting._buffers := {["nll_weight" := constant [1] 1%R]};
     GoodWillHunting._non_persistent_buffers_set := ∅ |}.

Definition one_token : tensor Z := constant [1; 1] 0%Z.
Definition two_tokens : tensor Z := constant [1; 2] 0%Z.

(** A machine with a CPU only, whose generator keeps the first entry it is
    asked about and drops the following ones at [p = 1/2]. *)
Definition cpu_world : World :=
  {| rng := {| uniform := fun k => if k =? 0 then 1 # 4 else 3 # 4; pos := 0 |};
     device_usable := String.eqb "cpu";
     scored := [] |}.

(** * Properties *)

(** ** Running computations *)

Lemma bind_ok {A B} (m : M A) (k : A -> M B) w a w' :
  m w = (Ok a, w') -> bind m k w = k a w'.
Proof. intros H. unfold bind. rewrite H. reflexivity. Qed.

Lemma bind_lift_ok {A B} (r : result A) (k : A -> M B) w a :
  r = Ok a -> bind (lift r) k w = k a w.
Proof. intros ->. reflexivity. Qed.

Lemma bind_inv_ok {A B} (m : M A) (k : A -> M B) w b w2 :
  bind m k w = (Ok b, w2) ->
  exists a w1, m w = (Ok a, w1) /\ k a w1 = (Ok b, w2).
Proof.
  unfold bind. destruct (m w) as [[a|e] w1]; intros H.
  - exists a, w1. split; [reflexivity | exact H].
  - discriminate H.
Qed.

(** ** The constructor of ConvEmbedding *)

Lemma even_not_odd_mod (k : Z) : Z.even k = true -> (k mod 2 =? 1)%Z = false.
Proof.
  intros H. apply Z.eqb_neq. rewrite Zmod_even, H. discriminate.
Qed.

Lemma odd_mod (k : Z) : Z.odd k = true -> (k mod 2 =? 1)%Z = true.
Proof.
  intros H. apply Z.eqb_eq. rewrite Zmod_odd, H. reflexivity.
Qed.

(** C3: an even kernel size makes the constructor raise its assertion
    error, whatever the other arguments are, before anything is allocated:
    no encoder comes out and the world is as it was. *)
Theorem even_kernel_size_rejected :
  forall (input_dim : Z) (device : string) (emb_dim hid_dim n_layers kernel_size : Z)
         (dropout : Q) (w : World),
    Z.even kernel_size = true ->
    ConvEmbedding.__init__ input_dim device emb_dim hid_dim n_layers kernel_size dropout w
    = (Raise (AssertionError "Kernel size must be odd!"), w).
Proof.
  intros input_dim device emb_dim hid_dim n_layers kernel_size dropout w Heven.
  unfold ConvEmbedding.__init__, Encoder.__init__.
  unfold bind at 1. unfold ret at 1.
  rewrite (even_not_odd_mod _ Heven). reflexivity.
Qed.

(** ** Shapes through the library operations *)

Lemma is_vector_refl (n : nat) : is_vector [n] n = true.
Proof. apply Nat.eqb_refl. Qed.

Lemma last_app1 (l : list nat) (x : nat) : List.last (l ++ [x]) 0 = x.
Proof. apply List.last_last. Qed.

Lemma removelast_app1 (l : list nat) (x : nat) : List.removelast (l ++ [x]) = l.
Proof. apply List.removelast_last. Qed.

Lemma Embedding_forward_ok (e : Embedding) (V E : nat) (input : tensor Z) :
  shape (emb_weight e) = [V; E] ->
  in_vocabulary input V = true ->
  exists y, Embedding_forward e input = Ok y /\ shape y = shape input ++ [E].
Proof.
  intros HW Hin. unfold Embedding_forward. rewrite HW, Hin.
  eexists. split; reflexivity.
Qed.

Lemma Linear_forward_ok (l : Linear) (n_out n_in : nat) (lead : list nat) (x : tensor R) :
  shape (lin_weight l) = [n_out; n_in] ->
  shape (lin_bias l) = [n_out] ->
  shape x = lead ++ [n_in] ->
  Linear_forward l x
  = Ok {| shape := lead ++ [n_out]; elem := affine (lin_weight l) (lin_bias l) x n_in |}.
Proof.
  intros HW Hb Hx. unfold Linear_forward. rewrite HW, Hb, Hx.
  rewrite last_app1, removelast_app1, Nat.eqb_refl, is_vector_refl. simpl.
  destruct lead; reflexivity.
Qed.

Lemma permute_021_ok {A} (x : tensor A) (a b c : nat) :
  shape x = [a; b; c] ->
  exists y, permute x [0; 2; 1] = Ok y /\ shape y = [a; c; b].
Proof.
  intros Hx. unfold permute. rewrite Hx. simpl.
  eexists. split; reflexivity.
Qed.

Lemma Dropout_forward_ok (d : Dropout) (x : tensor R) (w : World) :
  exists y w', Dropout_forward d x w = (Ok y, w') /\ shape y = shape x.
Proof.
  unfold Dropout_forward.
  destruct (negb (drop_training d) || Qeq_bool (drop_p d) 0 || (numel (shape x) =? 0)).
  - exists x, w. split; reflexivity.
  - destruct (Qeq_bool (drop_p d) 1).
    + eexists _, w. split; reflexivity.
    + eexists _, _. split; reflexivity.
Qed.

Lemma broadcast_rev_same (s : list nat) : broadcast_rev s s = Some s.
Proof.
  induction s as [|x s IH]; [reflexivity|].
  simpl. rewrite Nat.eqb_refl, IH. reflexivity.
Qed.

Lemma broadcast_shapes_same (s : list nat) : broadcast_shapes s s = Some s.
Proof.
  unfold broadcast_shapes. rewrite broadcast_rev_same, List.rev_involutive. reflexivity.
Qed.

Lemma broadcast_shapes_one (a b c : nat) : broadcast_shapes [a; b; c] [1] = Some [a; b; c].
Proof.
  unfold broadcast_shapes. simpl. rewrite orb_true_r. reflexivity.
Qed.

Lemma odd_kernel_geometry (k : Z) :
  (k mod 2 = 1)%Z -> (0 <= k)%Z ->
  (0 <= (k - 1) / 2)%Z /\ 2 * Z.to_nat ((k - 1) / 2) + 1 = Z.to_nat k.
Proof.
  intros Hodd Hk.
  assert (Hdiv : (k = 2 * (k / 2) + 1)%Z).
  { pose proof (Z.div_mod k 2) as Hdm. lia. }
  assert (Hq : ((k - 1) / 2 = k / 2)%Z).
  { replace (k - 1)%Z with ((k / 2) * 2)%Z by lia. apply Z.div_mul. lia. }
  assert (Hpos : (0 <= k / 2)%Z) by (apply Z.div_pos; lia).
  rewrite Hq. split; [exact Hpos | lia].
Qed.

Lemma Conv1d_forward_ok (c : Conv1d) (Cout Cin K N L : nat) (x : tensor R) :
  shape (conv_weight c) = [Cout; Cin; K] ->
  shape (conv_bias c) = [Cout] ->
  (0 <= conv_padding c)%Z ->
  1 <= Cout ->
  K <= L + 2 * Z.to_nat (conv_padding c) ->
  shape x = [N; Cin; L] ->
  exists y, Conv1d_forward c x = Ok y
            /\ shape y = [N; Cout; L + 2 * Z.to_nat (conv_padding c) - K + 1].
Proof.
  intros HW Hb Hp HC HK Hx. unfold Conv1d_forward. rewrite HW, Hx.
  unfold conv_checks. rewrite Hb, is_vector_refl, Nat.eqb_refl.
  destruct (Z.ltb_spec (conv_padding c) 0) as [Hneg|_]; [lia|].
  destruct (Nat.ltb_spec Cout 1) as [Hlt|_]; [lia|].
  destruct (Nat.ltb_spec (L + 2 * Z.to_nat (conv_padding c)) K) as [Hlt|_]; [lia|].
  simpl. eexists. split; reflexivity.
Qed.

Lemma glu_channels_ok (x : tensor R) (N H L : nat) :
  shape x = [N; 2 * H; L] ->
  exists y, glu x 1 = Ok y /\ shape y = [N; H; L].
Proof.
  intros Hx. unfold glu. rewrite Hx.
  change ([N; 2 * H; L] !! 1) with (Some (2 * H)).
  assert (Heven : Nat.even (2 * H) = true).
  { apply Nat.even_spec. exists H. reflexivity. }
  cbv beta iota. rewrite Heven. eexists. split; [reflexivity|].
  cbn [shape]. change (<[1 := 2 * H / 2]> [N; 2 * H; L]) with [N; 2 * H / 2; L].
  rewrite Nat.mul_comm, Nat.div_mul by lia. reflexivity.
Qed.

Lemma add_same_shape_ok (x y : tensor R) (s : list nat) :
  shape x = s -> shape y = s ->
  exists z, add x y = Ok z /\ shape z = s.
Proof.
  intros Hx Hy. unfold add, pointwise. rewrite Hx, Hy, broadcast_shapes_same.
  eexists. split; reflexivity.
Qed.

Lemma mul_scale_ok (x y : tensor R) (a b c : nat) :
  shape x = [a; b; c] -> shape y = [1] ->
  exists z, mul x y = Ok z /\ shape z = [a; b; c].
Proof.
  intros Hx Hy. unfold mul, pointwise. rewrite Hx, Hy, broadcast_shapes_one.
  eexists. split; reflexivity.
Qed.

(** ** The forward pass of ConvEmbedding *)

Section ConvForward.

Variable self : ConvEmbedding.t.
Hypothesis Hwf : ConvEmbedding.well_formed self.
Hypothesis Hhid : (1 <= ConvEmbedding.hid_dim self)%Z.

Let H := Z.to_nat (ConvEmbedding.hid_dim self).

Lemma conv_block_ok (conv : Conv1d) (conv_input : tensor R) (N L : nat) (w : World) :
  ConvEmbedding.conv_layer_ok self conv ->
  1 <= L ->
  shape conv_input = [N; H; L] ->
  exists y w', ConvEmbedding.conv_block self conv conv_input w = (Ok y, w')
               /\ shape y = [N; H; L].
Proof.
  intros (HW & Hb & Hp & Hk) HL Hx.
  destruct (odd_kernel_geometry _ (ConvEmbedding.wf_kernel _ Hwf) Hk) as [Hp0 Hgeo].
  assert (H2 : Z.to_nat (2 * ConvEmbedding.hid_dim self) = 2 * H) by (subst H; lia).
  rewrite H2 in HW, Hb.
  unfold ConvEmbedding.conv_block.
  destruct (Dropout_forward_ok (ConvEmbedding.dropout self) conv_input w)
    as (d & w' & Hd & Hds).
  rewrite (bind_ok _ _ _ _ _ Hd).
  destruct (Conv1d_forward_ok conv (2 * H) H _ N L d HW Hb) as (c1 & Hc1 & Hc1s).
  { rewrite Hp. exact Hp0. }
  { subst H. lia. }
  { rewrite Hp. lia. }
  { rewrite Hds. exact Hx. }
  rewrite (bind_lift_ok _ _ _ _ Hc1).
  assert (Hlen : L + 2 * Z.to_nat (conv_padding conv)
                 - Z.to_nat (ConvEmbedding.kernel_size self) + 1 = L).
  { rewrite Hp. lia. }
  rewrite Hlen in Hc1s.
  destruct (glu_channels_ok c1 N H L Hc1s) as (g & Hg & Hgs).
  rewrite (bind_lift_ok _ _ _ _ Hg).
  destruct (add_same_shape_ok g conv_input _ Hgs Hx) as (s & Hs & Hss).
  rewrite (bind_lift_ok _ _ _ _ Hs).
  destruct (mul_scale_ok s (ConvEmbedding.scale self) N H L Hss
              (ConvEmbedding.wf_scale _ Hwf)) as (m & Hm & Hms).
  rewrite (bind_lift_ok _ _ _ _ Hm).
  exists m, w'. split; [reflexivity | exact Hms].
Qed.

Lemma conv_loop_ok (layers : list Conv1d) :
  Forall (ConvEmbedding.conv_layer_ok self) layers ->
  forall (conved : option (tensor R)) (conv_input : tensor R) (N L : nat) (w : World),
    1 <= L ->
    shape conv_input = [N; H; L] ->
    (layers = [] -> exists c, conved = Some c /\ shape c = [N; H; L]) ->
    exists y rest w',
      ConvEmbedding.conv_loop self layers conved conv_input w = (Ok (Some y, rest), w')
      /\ shape y = [N; H; L].
Proof.
  induction 1 as [|conv layers Hconv Hall IH]; intros conved conv_input N L w HL Hx Hnil.
  - destruct (Hnil eq_refl) as (c & -> & Hc).
    exists c, conv_input, w. split; [reflexivity | exact Hc].
  - simpl.
    destruct (conv_block_ok conv conv_input N L w Hconv HL Hx) as (y & w' & Hy & Hys).
    rewrite (bind_ok _ _ _ _ _ Hy).
    apply IH; [exact HL | exact Hys |].
    intros _. exists y. split; [reflexivity | exact Hys].
Qed.

End ConvForward.

Lemma forward_keeps_sequence_length_aux :
  forall (self : ConvEmbedding.t) (src : tensor Z) (B L : nat) (w : World),
    ConvEmbedding.well_formed self ->
    ConvEmbedding.convs self <> [] ->
    (1 <= ConvEmbedding.hid_dim self)%Z ->
    shape src = [B; L] ->
    1 <= L ->
    in_vocabulary src (Z.to_nat (ConvEmbedding.input_dim self)) = true ->
    exists y w',
      ConvEmbedding.forward self src w = (Ok y, w')
      /\ shape y = [B; L; Z.to_nat (ConvEmbedding.emb_dim self)].
Proof.
  intros self src B L w Hwf Hlayers Hhid Hsrc HL Hvoc.
  unfold ConvEmbedding.forward.
  destruct (Embedding_forward_ok _ _ _ src (ConvEmbedding.wf_embedding _ Hwf) Hvoc)
    as (e & He & Hes).
  rewrite (bind_lift_ok _ _ _ _ He).
  destruct (Dropout_forward_ok (ConvEmbedding.dropout self) e w) as (d & w1 & Hd & Hds).
  rewrite (bind_ok _ _ _ _ _ Hd).
  rewrite Hes, Hsrc in Hds.
  rewrite (bind_lift_ok _ _ _ _
             (Linear_forward_ok _ _ _ [B; L] d
                (ConvEmbedding.wf_emb2hid_weight _ Hwf)
                (ConvEmbedding.wf_emb2hid_bias _ Hwf) Hds)).
  destruct (permute_021_ok
              {| shape := [B; L] ++ [Z.to_nat (ConvEmbedding.hid_dim self)];
                 elem := affine (lin_weight (ConvEmbedding.emb2hid self))
                                (lin_bias (ConvEmbedding.emb2hid self)) d
                                (Z.to_nat (ConvEmbedding.emb_dim self)) |}
              B L _ eq_refl) as (ci & Hci & Hcis).
  rewrite (bind_lift_ok _ _ _ _ Hci).
  destruct (conv_loop_ok self Hwf Hhid _ (ConvEmbedding.wf_convs _ Hwf)
              None ci B L w1 HL Hcis) as (c & rest & w2 & Hloop & Hcs).
  { intros Hnil. contradiction. }
  rewrite (bind_ok _ _ _ _ _ Hloop). cbn [fst].
  destruct (permute_021_ok c _ _ _ Hcs) as (back & Hback & Hbacks).
  rewrite (bind_lift_ok _ _ _ _ Hback).
  exists {| shape := [B; L] ++ [Z.to_nat (ConvEmbedding.emb_dim self)];
            elem := affine (lin_weight (ConvEmbedding.hid2emb self))
                           (lin_bias (ConvEmbedding.hid2emb self)) back
                           (Z.to_nat (ConvEmbedding.hid_dim self)) |}, w2.
  split; [|reflexivity].
  unfold lift. f_equal.
  apply (Linear_forward_ok _ _ _ [B; L] back
           (ConvEmbedding.wf_hid2emb_weight _ Hwf)
           (ConvEmbedding.wf_hid2emb_bias _ Hwf) Hbacks).
Qed.

(** C4, as the code has it: an encoder with an odd kernel, at least one
    convolution layer and a positive hidden width maps every batch of
    non-empty token sequences drawn from its vocabulary to one vector of
    embedding width per token position: the sequence length is kept. *)
Theorem forward_keeps_sequence_length :
  forall (self : ConvEmbedding.t) (src : tensor Z) (B L : nat) (w : World),
    ConvEmbedding.well_formed self ->
    ConvEmbedding.convs self <> [] ->
    (1 <= ConvEmbedding.hid_dim self)%Z ->
    shape src = [B; L] ->
    1 <= L ->
    in_vocabulary src (Z.to_nat (ConvEmbedding.input_dim self)) = true ->
    exists y w',
      ConvEmbedding.forward self src w = (Ok y, w')
      /\ shape y = [B; L; Z.to_nat (ConvEmbedding.emb_dim self)].
Proof. exact forward_keeps_sequence_length_aux. Qed.

(** ** What the constructors build *)

Lemma fresh_shape (shp : list nat) (w : World) (x : tensor R) (w' : World) :
  fresh shp w = (Ok x, w') -> shape x = shp.
Proof. unfold fresh. intros [= <- _]. reflexivity. Qed.

Lemma to_inv {A} (x y : tensor A) (device : string) (w w' : World) :
  to x device w = (Ok y, w') -> y = x /\ w' = w /\ device_usable w device = true.
Proof.
  unfold to. destruct (device_usable w device); intros [= <- <-]; auto.
Qed.

Lemma nn_Embedding_inv (V E : Z) (w : World) (e : Embedding) (w' : World) :
  nn_Embedding V E w = (Ok e, w') ->
  shape (emb_weight e) = [Z.to_nat V; Z.to_nat E].
Proof.
  unfold nn_Embedding. destruct ((V <? 0)%Z || (E <? 0)%Z); [discriminate|].
  intros H. apply bind_inv_ok in H as (x & w1 & Hx & [= <- _]).
  apply (fresh_shape _ _ _ _ Hx).
Qed.

Lemma nn_Linear_inv (n_in n_out : Z) (w : World) (l : Linear) (w' : World) :
  nn_Linear n_in n_out w = (Ok l, w') ->
  shape (lin_weight l) = [Z.to_nat n_out; Z.to_nat n_in]
  /\ shape (lin_bias l) = [Z.to_nat n_out]
  /\ (0 <= n_in)%Z /\ (0 <= n_out)%Z.
Proof.
  unfold nn_Linear.
  destruct (Z.ltb_spec n_in 0); [discriminate|].
  destruct (Z.ltb_spec n_out 0); [discriminate|]. simpl.
  intros H'. apply bind_inv_ok in H' as (x & w1 & Hx & H').
  apply bind_inv_ok in H' as (b & w2 & Hb & [= <- _]).
  cbn. rewrite (fresh_shape _ _ _ _ Hx), (fresh_shape _ _ _ _ Hb). auto.
Qed.

Lemma nn_Conv1d_inv (c_in c_out k p : Z) (w : World) (c : Conv1d) (w' : World) :
  nn_Conv1d c_in c_out k p w = (Ok c, w') ->
  shape (conv_weight c) = [Z.to_nat c_out; Z.to_nat c_in; Z.to_nat k]
  /\ shape (conv_bias c) = [Z.to_nat c_out]
  /\ conv_padding c = p
  /\ (0 <= k)%Z.
Proof.
  unfold nn_Conv1d.
  destruct (Z.ltb_spec c_in 0); [discriminate|].
  destruct (Z.ltb_spec c_out 0); [discriminate|].
  destruct (Z.ltb_spec k 0); [discriminate|]. simpl.
  intros H'. apply bind_inv_ok in H' as (x & w1 & Hx & H').
  apply bind_inv_ok in H' as (b & w2 & Hb & [= <- _]).
  cbn. rewrite (fresh_shape _ _ _ _ Hx), (fresh_shape _ _ _ _ Hb). auto.
Qed.

Lemma nn_Dropout_inv (p : Q) (w : World) (d : Dropout) (w' : World) :
  nn_Dropout p w = (Ok d, w') -> d = {| drop_p := p; drop_training := true |}.
Proof.
  unfold nn_Dropout. destruct (Qle_bool 0 p && Qle_bool p 1); [|discriminate].
  intros [= <- _]. reflexivity.
Qed.

Lemma mapM_inv {A B} (f : A -> M B) (P : B -> Prop) :
  (forall a w b w', f a w = (Ok b, w') -> P b) ->
  forall (l : list A) (w : World) (bs : list B) (w' : World),
    mapM f l w = (Ok bs, w') -> Forall P bs /\ length bs = length l.
Proof.
  intros Hf. induction l as [|a l IH]; intros w bs w' H.
  - injection H as <- _. split; [constructor | reflexivity].
  - simpl in H. apply bind_inv_ok in H as (b & w1 & Hb & H).
    apply bind_inv_ok in H as (bs' & w2 & Hbs & [= <- _]).
    destruct (IH _ _ _ Hbs) as [Hall Hlen].
    split; [constructor; eauto | simpl; congruence].
Qed.

Lemma range_length (n : Z) : length (range n) = Z.to_nat n.
Proof. unfold range. rewrite length_map, length_seq. reflexivity. Qed.

Lemma ConvEmbedding_init_inv
    (input_dim : Z) (device : string) (emb_dim hid_dim n_layers kernel_size : Z)
    (dropout : Q) (w : World) (enc : ConvEmbedding.t) (w' : World) :
  ConvEmbedding.__init__ input_dim device emb_dim hid_dim n_layers kernel_size dropout w
  = (Ok enc, w') ->
  ConvEmbedding.well_formed enc
  /\ length (ConvEmbedding.convs enc) = Z.to_nat n_layers
  /\ ConvEmbedding.input_dim enc = input_dim
  /\ ConvEmbedding.device enc = device
  /\ ConvEmbedding.dropout enc = {| drop_p := dropout; drop_training := true |}.
Proof.
  unfold ConvEmbedding.__init__, Encoder.__init__. intros H.
  unfold bind at 1 in H. unfold ret at 1 in H. cbn [Encoder.device Encoder.input_dim] in H.
  destruct (Z.eqb_spec (kernel_size mod 2) 1) as [Hodd|]; [|discriminate]. cbn [negb] in H.
  apply bind_inv_ok in H as (sc & w1 & Hsc & H).
  apply to_inv in Hsc as (-> & -> & _).
  apply bind_inv_ok in H as (te & w2 & Hte & H).
  apply bind_inv_ok in H as (l1 & w3 & Hl1 & H).
  apply bind_inv_ok in H as (l2 & w4 & Hl2 & H).
  apply bind_inv_ok in H as (cs & w5 & Hcs & H).
  apply bind_inv_ok in H as (dr & w6 & Hdr & [= <- _]).
  apply nn_Embedding_inv in Hte.
  apply nn_Linear_inv in Hl1 as (? & ? & ? & ?).
  apply nn_Linear_inv in Hl2 as (? & ? & ? & ?).
  apply nn_Dropout_inv in Hdr as ->.
  apply (mapM_inv _ (fun c =>
           shape (conv_weight c)
           = [Z.to_nat (2 * hid_dim); Z.to_nat hid_dim; Z.to_nat kernel_size]
           /\ shape (conv_bias c) = [Z.to_nat (2 * hid_dim)]
           /\ conv_padding c = ((kernel_size - 1) / 2)%Z
           /\ (0 <= kernel_size)%Z)) in Hcs as [Hall Hlen].
  2:{ intros _ wa c wb Hc. apply (nn_Conv1d_inv _ _ _ _ _ _ _ Hc). }
  rewrite range_length in Hlen.
  repeat split; try assumption; try reflexivity.
Qed.

Lemma nn_Embedding_ok (V E : Z) (w : World) :
  (0 <= V)%Z -> (0 <= E)%Z -> exists e w', nn_Embedding V E w = (Ok e, w').
Proof.
  intros HV HE. unfold nn_Embedding.
  destruct (Z.ltb_spec V 0); [lia|]. destruct (Z.ltb_spec E 0); [lia|].
  simpl. eexists _, _. reflexivity.
Qed.

Lemma nn_Linear_ok (n_in n_out : Z) (w : World) :
  (0 <= n_in)%Z -> (0 <= n_out)%Z -> exists l w', nn_Linear n_in n_out w = (Ok l, w').
Proof.
  intros Hi Ho. unfold nn_Linear.
  destruct (Z.ltb_spec n_in 0); [lia|]. destruct (Z.ltb_spec n_out 0); [lia|].
  simpl. eexists _, _. reflexivity.
Qed.

(** ** An encoder without convolution layers *)

Lemma zero_layers_constructed
    (input_dim : Z) (device : string) (emb_dim hid_dim kernel_size : Z)
    (dropout : Q) (w : World) :
  Z.odd kernel_size = true ->
  (0 <= input_dim)%Z -> (0 <= emb_dim)%Z -> (0 <= hid_dim)%Z ->
  Qle_bool 0 dropout && Qle_bool dropout 1 = true ->
  device_usable w device = true ->
  exists enc w',
    ConvEmbedding.__init__ input_dim device emb_dim hid_dim 0 kernel_size dropout w
    = (Ok enc, w').
Proof.
  intros Hodd HV HE HH Hp Hdev.
  unfold ConvEmbedding.__init__, Encoder.__init__.
  unfold bind at 1. unfold ret at 1. rewrite (odd_mod _ Hodd). cbn [negb Encoder.device].
  assert (Hto : to ConvEmbedding.sqrt_half device w = (Ok ConvEmbedding.sqrt_half, w)).
  { unfold to. rewrite Hdev. reflexivity. }
  rewrite (bind_ok _ _ _ _ _ Hto).
  destruct (nn_Embedding_ok input_dim emb_dim w HV HE) as (te & w1 & Hte).
  rewrite (bind_ok _ _ _ _ _ Hte).
  destruct (nn_Linear_ok emb_dim hid_dim w1 HE HH) as (l1 & w2 & Hl1).
  rewrite (bind_ok _ _ _ _ _ Hl1).
  destruct (nn_Linear_ok hid_dim emb_dim w2 HH HE) as (l2 & w3 & Hl2).
  rewrite (bind_ok _ _ _ _ _ Hl2).
  change (range 0) with (@nil Z). cbn [mapM].
  unfold bind at 1. unfold ret at 1.
  unfold nn_Dropout. rewrite Hp.
  eexists _, _. reflexivity.
Qed.

Lemma forward_without_layers_raises (self : ConvEmbedding.t) :
  ConvEmbedding.convs self = [] ->
  forall (src : tensor Z) (w : World),
  exists e, fst (ConvEmbedding.forward self src w) = Raise e.
Proof.
  intros Hnil src w. unfold ConvEmbedding.forward. rewrite Hnil.
  unfold bind, lift.
  destruct (Embedding_forward _ src) as [e|err]; [|eexists; reflexivity].
  destruct (Dropout_forward _ e w) as [[d|err] w1]; [|eexists; reflexivity].
  destruct (Linear_forward _ d) as [l|err]; [|eexists; reflexivity].
  destruct (permute l _) as [ci|err]; [|eexists; reflexivity].
  simpl. eexists. reflexivity.
Qed.

Lemma forward_without_layers_unbound
    (self : ConvEmbedding.t) (src : tensor Z) (B L : nat) (w : World) :
  ConvEmbedding.well_formed self ->
  ConvEmbedding.convs self = [] ->
  shape src = [B; L] ->
  in_vocabulary src (Z.to_nat (ConvEmbedding.input_dim self)) = true ->
  fst (ConvEmbedding.forward self src w) = Raise (UnboundLocalError "conved").
Proof.
  intros Hwf Hnil Hsrc Hvoc. unfold ConvEmbedding.forward. rewrite Hnil.
  destruct (Embedding_forward_ok _ _ _ src (ConvEmbedding.wf_embedding _ Hwf) Hvoc)
    as (e & He & Hes).
  rewrite (bind_lift_ok _ _ _ _ He).
  destruct (Dropout_forward_ok (ConvEmbedding.dropout self) e w) as (d & w1 & Hd & Hds).
  rewrite (bind_ok _ _ _ _ _ Hd).
  rewrite Hes, Hsrc in Hds.
  rewrite (bind_lift_ok _ _ _ _
             (Linear_forward_ok _ _ _ [B; L] d
                (ConvEmbedding.wf_emb2hid_weight _ Hwf)
                (ConvEmbedding.wf_emb2hid_bias _ Hwf) Hds)).
  reflexivity.
Qed.

(** C10: the constructor accepts [n_layers = 0]; on the encoder it builds
    every call of [forward] raises, with [conved] unbound as soon as the
    input gets as far as the loop; and an encoder on which some call of
    [forward] returns was built with [n_layers >= 1]. *)
Theorem zero_layers_accepted_but_forward_fails :
  forall (input_dim : Z) (device : string) (emb_dim hid_dim kernel_size : Z)
         (dropout : Q) (w : World),
    Z.odd kernel_size = true ->
    (0 <= input_dim)%Z -> (0 <= emb_dim)%Z -> (0 <= hid_dim)%Z ->
    Qle_bool 0 dropout && Qle_bool dropout 1 = true ->
    device_usable w device = true ->
    (exists enc w',
        ConvEmbedding.__init__ input_dim device emb_dim hid_dim 0 kernel_size dropout w
        = (Ok enc, w')
        /\ (forall src w0, exists e, fst (ConvEmbedding.forward enc src w0) = Raise e)
        /\ (forall src B L w0,
               shape src = [B; L] ->
               in_vocabulary src (Z.to_nat input_dim) = true ->
               fst (ConvEmbedding.forward enc src w0) = Raise (UnboundLocalError "conved")))
    /\ (forall n_layers w1 enc w1' src w0 y w0',
           ConvEmbedding.__init__ input_dim device emb_dim hid_dim n_layers kernel_size
                                  dropout w1 = (Ok enc, w1') ->
           ConvEmbedding.forward enc src w0 = (Ok y, w0') ->
           (1 <= n_layers)%Z).
Proof.
  intros input_dim device emb_dim hid_dim kernel_size dropout w Hodd HV HE HH Hp Hdev.
  split.
  - destruct (zero_layers_constructed input_dim device emb_dim hid_dim kernel_size
                dropout w Hodd HV HE HH Hp Hdev) as (enc & w' & Hinit).
    exists enc, w'. split; [exact Hinit|].
    destruct (ConvEmbedding_init_inv _ _ _ _ _ _ _ _ _ _ Hinit)
      as (Hwf & Hlen & Hin & _).
    assert (Hnil : ConvEmbedding.convs enc = []).
    { destruct (ConvEmbedding.convs enc); [reflexivity | discriminate Hlen]. }
    split.
    + apply forward_without_layers_raises. exact Hnil.
    + intros src B L w0 Hsrc Hvoc.
      apply (forward_without_layers_unbound enc src B L w0 Hwf Hnil Hsrc).
      rewrite Hin. exact Hvoc.
  - intros n_layers w1 enc w1' src w0 y w0' Hinit Hfwd.
    destruct (ConvEmbedding_init_inv _ _ _ _ _ _ _ _ _ _ Hinit) as (_ & Hlen & _).
    destruct (ConvEmbedding.convs enc) as [|c cs] eqn:Hconvs.
    + destruct (forward_without_layers_raises enc Hconvs src w0) as (e & He).
      rewrite Hfwd in He. discriminate He.
    + simpl in Hlen. lia.
Qed.


(** ** LinearDecoder *)

Lemma LinearDecoder_init_inv
    (enc_dim out_dim highway_layers : Z) (highway_act : string)
    (w : World) (dec : LinearDecoder.t) (w' : World) :
  LinearDecoder.__init__ enc_dim out_dim highway_layers highway_act w = (Ok dec, w') ->
  LinearDecoder.configured enc_dim out_dim dec
  /\ LinearDecoder.extra dec = ∅
  /\ (0 <= enc_dim)%Z /\ (0 <= out_dim)%Z.
Proof.
  unfold LinearDecoder.__init__. intros H.
  apply bind_inv_ok in H as (l & w1 & Hl & [= <- _]).
  apply nn_Linear_inv in Hl as (HW & Hb & Hi & Ho).
  unfold LinearDecoder.configured. cbn. auto 10.
Qed.

Lemma LinearDecoder_forward_is_linear (self : LinearDecoder.t) (x : tensor R) (w : World) :
  LinearDecoder.highway self = None ->
  LinearDecoder.forward self x w = (Linear_forward (LinearDecoder.decoder self) x, w).
Proof.
  intros Hnone. unfold LinearDecoder.forward. rewrite Hnone.
  unfold bind, ret, lift.
  destruct (Linear_forward (LinearDecoder.decoder self) x); reflexivity.
Qed.

(** C7: a decoder configured for [out_dim] classes maps an input of any
    leading (batch, sequence) shape whose last axis has the encoder width to
    an output of the same leading shape whose last axis has [out_dim]
    entries, and each entry is the affine score itself: nothing is applied
    on top of it. *)
Theorem decoder_last_dimension_is_out_dim :
  forall (enc_dim out_dim : Z) (self : LinearDecoder.t)
         (x : tensor R) (lead : list nat) (w : World),
    LinearDecoder.configured enc_dim out_dim self ->
    shape x = lead ++ [Z.to_nat enc_dim] ->
    exists y,
      LinearDecoder.forward self x w = (Ok y, w)
      /\ shape y = lead ++ [Z.to_nat out_dim]
      /\ List.last (shape y) 0 = Z.to_nat (LinearDecoder.out_dim self)
      /\ forall idx,
           elem y idx
           = affine (lin_weight (LinearDecoder.decoder self))
                    (lin_bias (LinearDecoder.decoder self)) x (Z.to_nat enc_dim) idx.
Proof.
  intros enc_dim out_dim self x lead w (Hout & Hhw & HW & Hb) Hx.
  rewrite (LinearDecoder_forward_is_linear self x w Hhw).
  rewrite (Linear_forward_ok _ _ _ lead x HW Hb Hx).
  eexists. split; [reflexivity|]. cbn [shape elem].
  rewrite last_app1, Hout. auto.
Qed.

(** C9: whatever [highway_layers] and [highway_act] are, the decoder that
    is built has no highway projection and one linear layer, weight and
    bias, from encoder width to class-score width; [forward] is exactly that
    layer, and on every input whose last axis has the encoder width it
    returns the affine scores; other values of the two arguments build the
    same decoder. *)
Theorem highway_arguments_are_ignored :
  forall (enc_dim out_dim highway_layers : Z) (highway_act : string)
         (w : World) (dec : LinearDecoder.t) (w' : World),
    LinearDecoder.__init__ enc_dim out_dim highway_layers highway_act w = (Ok dec, w') ->
    LinearDecoder.highway dec = None
    /\ LinearDecoder.configured enc_dim out_dim dec
    /\ shape (lin_weight (LinearDecoder.decoder dec)) = [Z.to_nat out_dim; Z.to_nat enc_dim]
    /\ shape (lin_bias (LinearDecoder.decoder dec)) = [Z.to_nat out_dim]
    /\ (forall x w0,
           LinearDecoder.forward dec x w0
           = (Linear_forward (LinearDecoder.decoder dec) x, w0))
    /\ (forall x lead w0,
           shape x = lead ++ [Z.to_nat enc_dim] ->
           LinearDecoder.forward dec x w0
           = (Ok {| shape := lead ++ [Z.to_nat out_dim];
                    elem := affine (lin_weight (LinearDecoder.decoder dec))
                                   (lin_bias (LinearDecoder.decoder dec))
                                   x (Z.to_nat enc_dim) |}, w0))
    /\ (forall other_layers other_act,
           LinearDecoder.__init__ enc_dim out_dim other_layers other_act w = (Ok dec, w')).
Proof.
  intros enc_dim out_dim highway_layers highway_act w dec w' Hinit.
  destruct (LinearDecoder_init_inv _ _ _ _ _ _ _ Hinit) as (Hconf & _).
  pose proof Hconf as (_ & Hhw & HW & Hb).
  split; [exact Hhw|]. split; [exact Hconf|]. split; [exact HW|]. split; [exact Hb|].
  split; [|split].
  - intros x w0. apply LinearDecoder_forward_is_linear. exact Hhw.
  - intros x lead w0 Hx.
    rewrite (LinearDecoder_forward_is_linear dec x w0 Hhw).
    rewrite (Linear_forward_ok _ _ _ lead x HW Hb Hx). reflexivity.
  - intros other_layers other_act. exact Hinit.
Qed.

(** ** Construction of GoodWillHunting *)

Lemma model_init_without_device_attribute
    (enc : encoder) (dec : LinearDecoder.t) (device : string) (w : World) :
  LinearDecoder.extra dec !! "device" = None ->
  GoodWillHunting.__init__ enc dec device w
  = (Raise (if String.eqb (encoder_device enc) device
            then AttributeError "LinearDecoder" "device"
            else AssertionError "All devices should be the same !"), w).
Proof.
  intros Hnone. unfold GoodWillHunting.__init__.
  cbn [GoodWillHunting.encoder_ GoodWillHunting.device GoodWillHunting.decoder].
  destruct (String.eqb (encoder_device enc) device); cbn [negb]; [|reflexivity].
  unfold LinearDecoder.getattr. rewrite Hnone. reflexivity.
Qed.

Lemma model_init_with_device_attribute
    (enc : encoder) (dec : LinearDecoder.t) (device : string) (v : pyobj) (w : World) :
  LinearDecoder.extra dec !! "device" = Some v ->
  GoodWillHunting.__init__ enc dec device w
  = if String.eqb (encoder_device enc) device && GoodWillHunting.same_device v device
    then match ones (LinearDecoder.out_dim dec) with
         | Ok nll_weight =>
             (Ok (GoodWillHunting.register_buffer
                    {| GoodWillHunting.encoder_ := enc;
                       GoodWillHunting.decoder := dec;
                       GoodWillHunting.device := device;
                       GoodWillHunting._buffers := ∅;
                       GoodWillHunting._non_persistent_buffers_set := ∅ |}
                    "nll_weight" nll_weight), w)
         | Raise e => (Raise e, w)
         end
    else (Raise (AssertionError "All devices should be the same !"), w).
Proof.
  intros Hsome. unfold GoodWillHunting.__init__.
  cbn [GoodWillHunting.encoder_ GoodWillHunting.device GoodWillHunting.decoder].
  destruct (String.eqb (encoder_device enc) device); cbn [negb andb]; [|reflexivity].
  unfold LinearDecoder.getattr. rewrite Hsome.
  unfold bind at 1. unfold lift at 1.
  destruct (GoodWillHunting.same_device v device); cbn [negb]; [|reflexivity].
  unfold bind, lift, ret.
  destruct (ones (LinearDecoder.out_dim dec)); reflexivity.
Qed.

(** C1, on the code: with a decoder as [LinearDecoder.__init__] builds it,
    the constructor of the model raises for every encoder and every device
    tag, the three tags being equal or not: the assertion error when the
    encoder's tag differs from the declared one, otherwise the attribute
    error of reading [device] on a decoder that has none. *)
Theorem model_over_LinearDecoder_is_never_built :
  forall (enc : encoder) (enc_dim out_dim highway_layers : Z) (highway_act : string)
         (w0 : World) (dec : LinearDecoder.t) (w1 : World) (device : string) (w : World),
    LinearDecoder.__init__ enc_dim out_dim highway_layers highway_act w0 = (Ok dec, w1) ->
    GoodWillHunting.__init__ enc dec device w
    = (Raise (if String.eqb (encoder_device enc) device
              then AttributeError "LinearDecoder" "device"
              else AssertionError "All devices should be the same !"), w).
Proof.
  intros enc enc_dim out_dim highway_layers highway_act w0 dec w1 device w Hinit.
  destruct (LinearDecoder_init_inv _ _ _ _ _ _ _ Hinit) as (_ & Hextra & _).
  apply model_init_without_device_attribute.
  rewrite Hextra. apply lookup_empty.
Qed.

(** ** The persistent buffer *)

Lemma run_all_keeps_self (self : GoodWillHunting.t) (calls : list GoodWillHunting.call) :
  forall w, fst (GoodWillHunting.run_all self calls w) = self.
Proof.
  induction calls as [|c calls IH]; intros w; [reflexivity|].
  simpl. destruct c; simpl; apply IH.
Qed.

Lemma ones_inv (n : Z) (x : tensor R) :
  ones n = Ok x ->
  (0 <= n)%Z /\ shape x = [Z.to_nat n] /\ forall idx, elem x idx = 1%R.
Proof.
  unfold ones. destruct (Z.ltb_spec n 0); [discriminate|].
  intros [= <-]. auto.
Qed.

Lemma model_init_inv
    (enc : encoder) (dec : LinearDecoder.t) (device : string) (w : World)
    (m : GoodWillHunting.t) (w' : World) :
  GoodWillHunting.__init__ enc dec device w = (Ok m, w') ->
  exists nll_weight,
    ones (LinearDecoder.out_dim dec) = Ok nll_weight
    /\ m = GoodWillHunting.register_buffer
             {| GoodWillHunting.encoder_ := enc;
                GoodWillHunting.decoder := dec;
                GoodWillHunting.device := device;
                GoodWillHunting._buffers := ∅;
                GoodWillHunting._non_persistent_buffers_set := ∅ |}
             "nll_weight" nll_weight
    /\ encoder_device enc = device
    /\ LinearDecoder.extra dec !! "device" = Some (PyStr device).
Proof.
  intros H.
  destruct (LinearDecoder.extra dec !! "device") as [v|] eqn:Hdev.
  - rewrite (model_init_with_device_attribute enc dec device v w Hdev) in H.
    destruct (String.eqb_spec (encoder_device enc) device) as [Henc|]; [|discriminate H].
    destruct v as [| |s|l]; cbn [andb GoodWillHunting.same_device] in H;
      try discriminate H.
    destruct (String.eqb_spec s device) as [Hs|]; [|discriminate H].
    rewrite Hs in *. clear Hs.
    destruct (ones (LinearDecoder.out_dim dec)) as [t|e]; [|discriminate H].
    injection H as <- _. exists t. auto.
  - rewrite (model_init_without_device_attribute enc dec device w Hdev) in H.
    discriminate H.
Qed.

(** C8: a model that was constructed holds under the name [nll_weight] a
    vector with one entry per class of its decoder, every entry 1; the
    buffer is among those saved with the parameters; and it is still there,
    unchanged, after any sequence of calls of [forward], [predict] and
    [train_epoch]. *)
Theorem nll_weight_is_a_persistent_vector_of_ones :
  forall (enc : encoder) (dec : LinearDecoder.t) (device : string) (w : World)
         (m : GoodWillHunting.t) (w' : World),
    GoodWillHunting.__init__ enc dec device w = (Ok m, w') ->
    forall (calls : list GoodWillHunting.call) (w0 : World),
    exists nll_weight,
      GoodWillHunting._buffers (fst (GoodWillHunting.run_all m calls w0)) !! "nll_weight"
      = Some nll_weight
      /\ GoodWillHunting.saved_buffers (fst (GoodWillHunting.run_all m calls w0))
         !! "nll_weight" = Some nll_weight
      /\ GoodWillHunting._buffers m !! "nll_weight" = Some nll_weight
      /\ shape nll_weight
         = [Z.to_nat (LinearDecoder.out_dim (GoodWillHunting.decoder m))]
      /\ (0 <= LinearDecoder.out_dim (GoodWillHunting.decoder m))%Z
      /\ forall idx, elem nll_weight idx = 1%R.
Proof.
  intros enc dec device w m w' Hinit calls w0.
  destruct (model_init_inv _ _ _ _ _ _ Hinit) as (t & Hones & -> & _).
  destruct (ones_inv _ _ Hones) as (Hpos & Hshape & Hone).
  rewrite run_all_keeps_self.
  exists t. cbn [GoodWillHunting.register_buffer GoodWillHunting._buffers
                 GoodWillHunting.decoder].
  assert (Hlook : (<[("nll_weight" : string) := t]> (∅ : gmap string (tensor R)))
                  !! ("nll_weight" : string) = Some t)
    by apply lookup_insert_eq.
  split; [exact Hlook|]. split; [|auto].
  unfold GoodWillHunting.saved_buffers.
  cbn [GoodWillHunting.register_buffer GoodWillHunting._buffers
       GoodWillHunting._non_persistent_buffers_set].
  apply map_lookup_filter_Some. split; [exact Hlook|].
  cbn. apply not_elem_of_difference. right. apply elem_of_singleton. reflexivity.
Qed.

(** ** predict *)

(** C2, on the code: [predict] calls the model with a keyword [out] that
    [forward] does not take, so for every model, batch and class-name
    mapping it raises a type error before the encoder runs, and returns no
    label. *)
Theorem predict_raises_on_every_input :
  forall (self : GoodWillHunting.t) (src : tensor Z) (classnames : gmap Z string)
         (w : World),
    GoodWillHunting.predict self src classnames w
    = (Raise (TypeError "forward() got an unexpected keyword argument 'out'"), w).
Proof.
  intros self src classnames w. reflexivity.
Qed.

Lemma argmax_classes_ok (out : tensor R) (B L C : nat) :
  shape out = [B; L; C] -> 1 <= C ->
  argmax out 2 = Ok (argmax_along out 2 (C - 1)).
Proof.
  intros Hs HC. unfold argmax. rewrite Hs.
  change ([B; L; C] !! 2) with (Some C).
  destruct C as [|n]; [lia|].
  replace (S n - 1) with n by lia. reflexivity.
Qed.

(** Were the call of the model to return scores for a non-empty batch, the
    labels would still not come out: each item of the nested list is itself
    a list, which a dictionary cannot look up. *)
Lemma predict_labels_unhashable
    (out : tensor R) (B L C : nat) (classnames : gmap Z string) (w : World) :
  shape out = [B; L; C] -> 1 <= B -> 1 <= C ->
  GoodWillHunting.predict_labels out classnames w
  = (Raise (TypeError "unhashable type: 'list'"), w).
Proof.
  intros Hs HB HC. unfold GoodWillHunting.predict_labels.
  rewrite (bind_lift_ok _ _ _ _ (argmax_classes_ok out B L C Hs HC)).
  unfold tolist, argmax_along. cbn [shape elem]. rewrite Hs.
  change (delete 2 [B; L; C]) with [B; L].
  destruct B as [|b]; [lia|]. reflexivity.
Qed.

(** ** forward and the generator *)

Lemma pure_ret {A} (a : A) : pure (ret a).
Proof. exists (Ok a). reflexivity. Qed.

Lemma pure_raise {A} (e : exn) : pure (@raise A e).
Proof. exists (Raise e). reflexivity. Qed.

Lemma pure_lift {A} (r : result A) : pure (lift r).
Proof. exists r. reflexivity. Qed.

Lemma pure_bind {A B} (m : M A) (k : A -> M B) :
  pure m -> (forall a, pure (k a)) -> pure (bind m k).
Proof.
  intros [r Hr] Hk. destruct r as [a|e].
  - destruct (Hk a) as [rb Hb]. exists rb. intros w.
    unfold bind. rewrite Hr. apply Hb.
  - exists (Raise e). intros w. unfold bind. rewrite Hr. reflexivity.
Qed.

Create HintDb purity.
#[local] Hint Resolve pure_ret pure_raise pure_lift : purity.

Lemma Dropout_forward_eval (d : Dropout) (x : tensor R) :
  drop_training d = false -> Dropout_forward d x = ret x.
Proof. intros Heval. unfold Dropout_forward. rewrite Heval. reflexivity. Qed.

Lemma Dropout_forward_inactive_pure (d : Dropout) (x : tensor R) :
  dropout_inactive d = true -> pure (Dropout_forward d x).
Proof.
  unfold dropout_inactive, Dropout_forward. intros Hoff.
  destruct (negb (drop_training d)); [apply pure_ret|].
  destruct (Qeq_bool (drop_p d) 0); [apply pure_ret|].
  cbn [orb] in Hoff |- *. rewrite Hoff.
  destruct (numel (shape x) =? 0); apply pure_ret.
Qed.

Lemma conv_block_pure (self : ConvEmbedding.t) (conv : Conv1d) (x : tensor R) :
  dropout_inactive (ConvEmbedding.dropout self) = true ->
  pure (ConvEmbedding.conv_block self conv x).
Proof.
  intros Hoff. unfold ConvEmbedding.conv_block.
  apply pure_bind; [apply Dropout_forward_inactive_pure; exact Hoff | intros d].
  repeat (apply pure_bind; [auto with purity | intros ?]).
  auto with purity.
Qed.

Lemma conv_loop_pure (self : ConvEmbedding.t) (layers : list Conv1d) :
  dropout_inactive (ConvEmbedding.dropout self) = true ->
  forall conved x, pure (ConvEmbedding.conv_loop self layers conved x).
Proof.
  intros Hoff. induction layers as [|conv layers IH]; intros conved x; simpl.
  - auto with purity.
  - apply pure_bind; [apply conv_block_pure; exact Hoff | intros c; apply IH].
Qed.

Lemma ConvEmbedding_forward_pure (self : ConvEmbedding.t) (src : tensor Z) :
  dropout_inactive (ConvEmbedding.dropout self) = true ->
  pure (ConvEmbedding.forward self src).
Proof.
  intros Hoff. unfold ConvEmbedding.forward.
  apply pure_bind; [auto with purity | intros e].
  apply pure_bind; [apply Dropout_forward_inactive_pure; exact Hoff | intros d].
  apply pure_bind; [auto with purity | intros l].
  apply pure_bind; [auto with purity | intros ci].
  apply pure_bind; [apply conv_loop_pure; exact Hoff | intros [conved rest]].
  cbn [fst]. destruct conved as [c|]; [|auto with purity].
  apply pure_bind; auto with purity.
Qed.

(** C6, as the code has it: whenever no dropout is active, that is in
    evaluation mode or with a dropout probability of 0 or 1 (and with a
    decoder without highway, as every constructed decoder), [forward] is a
    function of the parameters and the input alone: it returns the same
    result in every state of the world and leaves that state as it was, so
    that two calls return equal outputs and nothing carried between calls
    influences the result. *)
Theorem forward_is_a_function_in_eval_mode :
  forall (self : GoodWillHunting.t) (src : tensor Z),
    GoodWillHunting.deterministic self = true ->
    LinearDecoder.highway (GoodWillHunting.decoder self) = None ->
    exists r, forall w, GoodWillHunting.forward self src w = (r, w).
Proof.
  intros self src Hoff Hhw.
  change (pure (GoodWillHunting.forward self src)).
  unfold GoodWillHunting.forward.
  apply pure_bind.
  - unfold GoodWillHunting.deterministic in Hoff. unfold encoder_call.
    destruct (GoodWillHunting.encoder_ self) as [b|c].
    + auto with purity.
    + apply ConvEmbedding_forward_pure. exact Hoff.
  - intros out. apply pure_bind; [|auto with purity].
    exists (Linear_forward (LinearDecoder.decoder (GoodWillHunting.decoder self)) out).
    intros w. apply LinearDecoder_forward_is_linear. exact Hhw.
Qed.

Lemma Q2R_half : Q2R (1 # 2) = (1 / 2)%R.
Proof. unfold Q2R. simpl. lra. Qed.

Lemma sqrt_half_pos : (0 < sqrt (1 / 2))%R.
Proof. apply sqrt_lt_R0. lra. Qed.

(** C6 as stated fails: a model as constructed is in training mode, where
    dropout draws from the generator.  Two calls in a row on the same
    one-token batch with the same parameters give different scores. *)
Lemma forward_differs_between_two_calls_in_training :
  exists y1 w1 y2 w2,
    GoodWillHunting.forward (tiny_model true) one_token cpu_world = (Ok y1, w1)
    /\ GoodWillHunting.forward (tiny_model true) one_token w1 = (Ok y2, w2)
    /\ elem y1 [0; 0; 0] <> elem y2 [0; 0; 0].
Proof.
  eexists _, _, _, _. split; [reflexivity|]. split; [reflexivity|].
  cbv -[Rplus Rmult Rinv Rdiv Ropp sqrt exp Q2R IZR sigmoid].
  rewrite Q2R_half. pose proof sqrt_half_pos as Hpos.
  generalize dependent (sqrt (1 / 2)). intros s Hs.
  generalize (sigmoid (0 * 0 + 0 + 0 + 0)). intros g Heq.
  lra.
Qed.

(** ** train_epoch *)

Lemma model_forward_ok
    (self : GoodWillHunting.t) (src : tensor Z) (B L : nat) (w : World) :
  GoodWillHunting.well_formed self ->
  shape src = [B; L] ->
  1 <= L ->
  in_vocabulary src (GoodWillHunting.vocabulary self) = true ->
  exists out w1,
    GoodWillHunting.forward self src w = (Ok out, w1)
    /\ shape out
       = [B; L; Z.to_nat (LinearDecoder.out_dim (GoodWillHunting.decoder self))].
Proof.
  intros (enc & Henc & Hwf & Hlayers & Hhid & Hdec & _) Hsrc HL Hvoc.
  unfold GoodWillHunting.vocabulary in Hvoc. rewrite Henc in Hvoc.
  unfold GoodWillHunting.forward. rewrite Henc. cbn [encoder_call].
  destruct (forward_keeps_sequence_length_aux enc src B L w Hwf Hlayers Hhid Hsrc HL Hvoc)
    as (e & w1 & He & Hes).
  rewrite (bind_ok _ _ _ _ _ He).
  destruct Hdec as (_ & Hhw & HW & Hb).
  assert (Hfwd : LinearDecoder.forward (GoodWillHunting.decoder self) e w1
                 = (Ok {| shape := [B; L] ++ [Z.to_nat (LinearDecoder.out_dim
                                                          (GoodWillHunting.decoder self))];
                          elem := affine
                                    (lin_weight (LinearDecoder.decoder
                                                   (GoodWillHunting.decoder self)))
                                    (lin_bias (LinearDecoder.decoder
                                                 (GoodWillHunting.decoder self)))
                                    e (Z.to_nat (ConvEmbedding.emb_dim enc)) |}, w1)).
  { rewrite (LinearDecoder_forward_is_linear _ e w1 Hhw).
    rewrite (Linear_forward_ok _ _ _ [B; L] e HW Hb Hes). reflexivity. }
  rewrite (bind_ok _ _ _ _ _ Hfwd).
  eexists _, w1. split; reflexivity.
Qed.

Lemma numel_app (a b : list nat) : numel (a ++ b) = numel a * numel b.
Proof.
  unfold numel. induction a as [|x a IH]; simpl; [lia|]. rewrite IH. lia.
Qed.

Lemma sizes_product_app (a b : list (nat * nat)) :
  sizes_product (a ++ b) = sizes_product a * sizes_product b.
Proof. unfold sizes_product. rewrite map_app. apply numel_app. Qed.

Lemma stride_chain_app (tn : nat) (a b : list (nat * nat)) :
  stride_chain tn (a ++ b)
  <-> stride_chain tn a /\ stride_chain (tn * sizes_product a) b.
Proof.
  revert tn. induction a as [|[s st] a IH]; intros tn.
  - simpl. unfold sizes_product, numel. simpl. rewrite Nat.mul_1_r. tauto.
  - simpl. rewrite IH.
    replace (tn * sizes_product ((s, st) :: a)) with (tn * s * sizes_product a)
      by (unfold sizes_product, numel; simpl; lia).
    tauto.
Qed.

Lemma sizes_product_contiguous (shp : list nat) :
  sizes_product (List.rev (combine shp (contiguous_strides shp))) = numel shp.
Proof.
  induction shp as [|s shp IH]; [reflexivity|].
  cbn [contiguous_strides combine List.rev]. rewrite sizes_product_app, IH.
  unfold sizes_product, numel. simpl. lia.
Qed.

Lemma contiguous_is_a_chain (shp : list nat) :
  stride_chain 1 (List.rev (combine shp (contiguous_strides shp))).
Proof.
  induction shp as [|s shp IH]; [exact I|].
  cbn [contiguous_strides combine List.rev].
  apply stride_chain_app. split; [exact IH|].
  rewrite sizes_product_contiguous. simpl. split; [lia | exact I].
Qed.

Lemma contiguous_last_stride (shp : list nat) :
  shp <> [] -> List.last (contiguous_strides shp) 0 = 1.
Proof.
  induction shp as [|s shp IH]; [contradiction|]. intros _.
  destruct shp as [|s' shp]; [reflexivity|].
  cbn [contiguous_strides] in *. cbn [List.last]. apply IH. discriminate.
Qed.

(** Over a contiguous layout no chunk ends before the first axis: the
    requested sizes are matched against the whole tensor at once. *)
Lemma merge_chunks_chain (dims : list (nat * nat)) :
  forall (view_dims : list nat) (tn : nat),
    dims <> [] ->
    stride_chain tn dims ->
    merge_chunks dims view_dims 1 tn 1
    = (let '(rest, taken) := consume view_dims 1 (tn * sizes_product dims) in
       (taken =? tn * sizes_product dims)
       && match rest with [] => true | _ :: _ => false end).
Proof.
  induction dims as [|[s st] dims IH]; intros view_dims tn Hne Hchain; [contradiction|].
  destruct Hchain as [_ Hchain].
  cbn [merge_chunks].
  destruct dims as [|[s' st'] dims].
  - replace (tn * sizes_product [(s, st)]) with (tn * s)
      by (unfold sizes_product, numel; simpl; lia).
    destruct (consume view_dims 1 (tn * s)) as [rest taken].
    destruct (taken =? tn * s); [|reflexivity].
    destruct rest; reflexivity.
  - pose proof Hchain as [Hst _].
    replace (st' =? tn * s * 1) with true by (symmetry; apply Nat.eqb_eq; lia).
    rewrite andb_false_r.
    rewrite (IH view_dims (tn * s) ltac:(discriminate) Hchain).
    replace (tn * s * sizes_product ((s', st') :: dims))
      with (tn * sizes_product ((s, st) :: (s', st') :: dims))
      by (unfold sizes_product, numel; simpl; lia).
    reflexivity.
Qed.

Lemma viewable_contiguous (shp new_shape : list nat) :
  shp <> [] -> numel shp <> 0 ->
  viewable shp (contiguous_strides shp) new_shape
  = (let '(rest, taken) := consume (List.rev new_shape) 1 (numel shp) in
     (taken =? numel shp) && match rest with [] => true | _ :: _ => false end).
Proof.
  intros Hne Hn. unfold viewable.
  destruct shp as [|s r]; [contradiction|].
  destruct (Nat.eqb_spec (numel (s :: r)) 0) as [|_]; [contradiction|].
  rewrite (contiguous_last_stride (s :: r) Hne).
  rewrite merge_chunks_chain.
  - rewrite sizes_product_contiguous, Nat.mul_1_l. reflexivity.
  - cbn [contiguous_strides combine List.rev].
    intros Hnil. apply app_eq_nil in Hnil as [_ Hnil]. discriminate Hnil.
  - apply contiguous_is_a_chain.
Qed.

(** A contiguous tensor can always be flattened to one axis. *)
Lemma viewable_contiguous_flat (shp : list nat) :
  viewable shp (contiguous_strides shp) [numel shp] = true.
Proof.
  destruct shp as [|s r]; [reflexivity|].
  destruct (Nat.eq_dec (numel (s :: r)) 0) as [H0|Hn].
  - unfold viewable. rewrite H0. reflexivity.
  - rewrite viewable_contiguous by (discriminate || assumption).
    cbn [List.rev app consume].
    assert (H1 : (1 <? numel (s :: r)) || (numel (s :: r) =? 1) = true).
    { destruct (Nat.ltb_spec 1 (numel (s :: r))); [reflexivity|].
      destruct (Nat.eqb_spec (numel (s :: r)) 1); [reflexivity | lia]. }
    rewrite H1, Nat.mul_1_l, Nat.eqb_refl. reflexivity.
Qed.

(** Contiguous scores of shape (B, L, C) can be viewed as one row per
    position. *)
Lemma viewable_contiguous_rows (B L C : nat) :
  1 <= C ->
  viewable [B; L; C] (contiguous_strides [B; L; C]) [B * L; C] = true.
Proof.
  intros HC.
  destruct (Nat.eq_dec (numel [B; L; C]) 0) as [H0|Hn].
  - unfold viewable. rewrite H0. reflexivity.
  - rewrite viewable_contiguous by (discriminate || assumption).
    assert (HN : numel [B; L; C] = B * L * C) by (unfold numel; simpl; lia).
    rewrite HN in *. cbn [List.rev app consume].
    assert (HBL : 1 <= B * L) by (destruct (B * L); [simpl in Hn; lia | lia]).
    assert (H1 : (1 <? B * L * C) || (C =? 1) = true).
    { destruct (Nat.ltb_spec 1 (B * L * C)); [reflexivity|].
      destruct (Nat.eqb_spec C 1); [reflexivity | nia]. }
    rewrite H1, Nat.mul_1_l.
    assert (H2 : (C <? B * L * C) || (B * L =? 1) = true).
    { destruct (Nat.ltb_spec C (B * L * C)); [reflexivity|].
      destruct (Nat.eqb_spec (B * L) 1); [reflexivity | nia]. }
    rewrite H2.
    replace (C * (B * L)) with (B * L * C) by lia.
    rewrite Nat.eqb_refl. reflexivity.
Qed.

Lemma inferred_shape_flat (n : nat) :
  inferred_shape (Z.of_nat n) [(-1)%Z] = Ok [n].
Proof.
  unfold inferred_shape.
  cbn [existsb List.filter Z.ltb Z.eqb Z.compare Pos.compare
       Pos.compare_cont negb orb length Zprod fold_right map].
  rewrite Z.mod_1_r, Z.div_1_r, Nat2Z.id. reflexivity.
Qed.

Lemma inferred_shape_rows (B L : nat) (d : Z) :
  (1 <= d)%Z ->
  inferred_shape (Z.of_nat (numel [B; L; Z.to_nat d])) [(-1)%Z; d]
  = Ok [B * L; Z.to_nat d].
Proof.
  intros Hd. unfold inferred_shape.
  assert (Hlt : (d <? -1)%Z = false) by (apply Z.ltb_ge; lia).
  assert (Heq : (d =? -1)%Z = false) by (apply Z.eqb_neq; lia).
  cbn [existsb List.filter orb]. rewrite Hlt, Heq.
  change ((-1 <? -1)%Z) with false. change ((-1 =? -1)%Z) with true.
  cbn [orb negb length Zprod fold_right map].
  rewrite Heq, Z.mul_1_r.
  destruct (Z.eqb_spec d 0) as [|_]; [lia|].
  assert (Hn : Z.of_nat (numel [B; L; Z.to_nat d]) = (Z.of_nat (B * L) * d)%Z).
  { unfold numel. cbn [fold_right]. rewrite Nat.mul_1_r, Nat.mul_assoc.
    rewrite Nat2Z.inj_mul, Z2Nat.id by lia. reflexivity. }
  rewrite Hn, Z.mod_mul, Z.div_mul, Nat2Z.id by lia.
  reflexivity.
Qed.

Lemma view_flatten_all {A} (x : strided A) :
  view x [(-1)%Z]
  = if viewable (shape (values x)) (strides x) [numel (shape (values x))]
    then Ok (reshape (values x) [numel (shape (values x))])
    else Raise (RuntimeError
                  "view size is not compatible with input tensor's size and stride").
Proof.
  unfold view. rewrite inferred_shape_flat. reflexivity.
Qed.

Lemma view_flatten_contiguous {A} (x : tensor A) :
  view (contiguous x) [(-1)%Z] = Ok (reshape x [numel (shape x)]).
Proof.
  rewrite view_flatten_all. cbn [contiguous values strides].
  rewrite viewable_contiguous_flat. reflexivity.
Qed.

Lemma view_flatten_rows {A} (x : tensor A) (B L : nat) (d : Z) :
  shape x = [B; L; Z.to_nat d] -> (1 <= d)%Z ->
  view (contiguous x) [(-1)%Z; d] = Ok (reshape x [B * L; Z.to_nat d]).
Proof.
  intros Hs Hd. unfold view. cbn [contiguous values strides]. rewrite Hs.
  rewrite (inferred_shape_rows B L d Hd). cbn [rbind].
  rewrite viewable_contiguous_rows by lia. reflexivity.
Qed.

Lemma train_epoch_unfolded
    (self : GoodWillHunting.t) (src : tensor Z) (trg : strided Z)
    (scorer : option Scorer) (criterion : option Criterion)
    (B L : nat) (w : World) (out : tensor R) (w1 : World) :
  GoodWillHunting.forward self src w = (Ok out, w1) ->
  shape out = [B; L; Z.to_nat (LinearDecoder.out_dim (GoodWillHunting.decoder self))] ->
  (1 <= LinearDecoder.out_dim (GoodWillHunting.decoder self))%Z ->
  GoodWillHunting.train_epoch self src trg scorer criterion w
  = match scorer with
    | None => (Raise (AttributeError "NoneType" "register_batch"), w1)
    | Some s =>
        match register_batch s
                (argmax_along out 2
                   (Z.to_nat (LinearDecoder.out_dim (GoodWillHunting.decoder self)) - 1))
                (values trg) src w1 with
        | (Ok _, w2) =>
            if viewable (shape (values trg)) (strides trg) [numel (shape (values trg))]
            then
              match criterion with
              | Some compute =>
                  compute
                    (reshape out
                       [B * L;
                        Z.to_nat (LinearDecoder.out_dim (GoodWillHunting.decoder self))])
                    (reshape (values trg) [numel (shape (values trg))]) w2
              | None => (Raise (TypeError "'NoneType' object is not callable"), w2)
              end
            else
              (Raise (RuntimeError
                        "view size is not compatible with input tensor's size and stride"),
               w2)
        | (Raise e, w2) => (Raise e, w2)
        end
    end.
Proof.
  intros Hout Hs Hclasses.
  unfold GoodWillHunting.train_epoch.
  change (GoodWillHunting.__call__ self src []) with (GoodWillHunting.forward self src).
  rewrite (bind_ok _ _ _ _ _ Hout).
  destruct scorer as [s|]; [|reflexivity].
  unfold bind at 1. unfold ret at 1.
  rewrite (bind_lift_ok _ _ _ _
             (argmax_classes_ok out B L _ Hs ltac:(lia))).
  unfold bind at 1.
  destruct (register_batch s _ (values trg) src w1) as [[u|e] w2]; [|reflexivity].
  rewrite (bind_lift_ok _ _ _ _ (view_flatten_rows out B L _ Hs Hclasses)).
  unfold bind at 1. unfold lift at 1. rewrite (view_flatten_all trg).
  destruct (viewable (shape (values trg)) (strides trg) [numel (shape (values trg))]);
    [|reflexivity].
  destruct criterion; reflexivity.
Qed.

(** C5, as the code has it: on a well-formed model and a batch of non-empty
    sequences from its vocabulary, [train_epoch] runs the forward pass and
    hands the arg-max class indices, the targets and the input to the
    scorer.  If the scorer returns, the scores are flattened to one row per
    position and the targets to one axis: when the memory layout of the
    targets does not admit that view its error is raised, and otherwise, as
    for every contiguous target, the call ends as the criterion ends on the
    two flattened tensors, with the criterion's value, whatever its sign, or
    with the criterion's error.  The shape of the targets is never compared
    with that of the scores, and nothing is written to the model. *)
Theorem train_epoch_delegates_to_scorer_and_criterion :
  forall (self : GoodWillHunting.t) (src : tensor Z) (trg : strided Z)
         (scorer : Scorer) (criterion : Criterion) (B L : nat) (w : World),
    GoodWillHunting.well_formed self ->
    shape src = [B; L] ->
    1 <= L ->
    in_vocabulary src (GoodWillHunting.vocabulary self) = true ->
    let C := Z.to_nat (LinearDecoder.out_dim (GoodWillHunting.decoder self)) in
    exists out w1,
      GoodWillHunting.forward self src w = (Ok out, w1)
      /\ shape out = [B; L; C]
      /\ GoodWillHunting.train_epoch self src trg (Some scorer) (Some criterion) w
         = match register_batch scorer (argmax_along out 2 (C - 1)) (values trg) src w1 with
           | (Ok _, w2) =>
               if viewable (shape (values trg)) (strides trg) [numel (shape (values trg))]
               then criterion (reshape out [B * L; C])
                              (reshape (values trg) [numel (shape (values trg))]) w2
               else
                 (Raise (RuntimeError
                           "view size is not compatible with input tensor's size and stride"),
                  w2)
           | (Raise e, w2) => (Raise e, w2)
           end
      /\ (strides trg = contiguous_strides (shape (values trg)) ->
          viewable (shape (values trg)) (strides trg) [numel (shape (values trg))] = true)
      /\ fst (GoodWillHunting.run self
                (GoodWillHunting.TrainEpoch src trg (Some scorer) (Some criterion)) w)
         = self.
Proof.
  intros self src trg scorer criterion B L w Hwf Hsrc HL Hvoc C.
  destruct (model_forward_ok self src B L w Hwf Hsrc HL Hvoc) as (out & w1 & Hout & Hs).
  exists out, w1. split; [exact Hout|]. split; [exact Hs|].
  destruct Hwf as (_ & _ & _ & _ & _ & _ & Hclasses).
  split; [|split; [|reflexivity]].
  - apply (train_epoch_unfolded self src trg (Some scorer) (Some criterion) B L w out w1
             Hout Hs Hclasses).
  - intros ->. apply viewable_contiguous_flat.
Qed.

(** C5 as stated fails on the small model with the recording scorer and the
    summed negative log-likelihood.  With contiguous targets of the shape of
    the input the loss that comes back is negative; with targets laid out
    the other way round, (2, 1) against scores for (1, 2), no error is
    raised; and with targets of the shape of the input held transposed in
    memory no loss comes back: the view of the targets raises, after the
    batch has been registered. *)
Lemma train_epoch_loss_negative_and_shapes_unchecked :
  (exists loss w',
      GoodWillHunting.train_epoch (tiny_model true) two_tokens
        (contiguous (constant [1; 2] 0%Z))
        (Some recording_scorer) (Some NLLLoss_sum) cpu_world = (Ok loss, w')
      /\ (loss < 0)%R)
  /\ (exists loss w',
         GoodWillHunting.train_epoch (tiny_model true) two_tokens
           (contiguous (constant [2; 1] 0%Z))
           (Some recording_scorer) (Some NLLLoss_sum) cpu_world = (Ok loss, w'))
  /\ (exists w',
         GoodWillHunting.train_epoch (tiny_model false) (constant [2; 2] 0%Z)
           {| values := constant [2; 2] 0%Z; strides := [1; 2] |}
           (Some recording_scorer) (Some NLLLoss_sum) cpu_world
         = (Raise (RuntimeError
                     "view size is not compatible with input tensor's size and stride"),
            w')
         /\ length (scored w') = 1).
Proof.
  split; [|split].
  - eexists _, _. split; [reflexivity|].
    cbv -[Rplus Rmult Rinv Rdiv Ropp sqrt exp Q2R IZR sigmoid Rlt].
    rewrite Q2R_half. pose proof sqrt_half_pos as Hpos.
    generalize dependent (sqrt (1 / 2)). intros s Hs.
    generalize (sigmoid (0 * 0 + 0 + 0 + 0)). intros g.
    lra.
  - eexists _, _. reflexivity.
  - eexists. split; reflexivity.
Qed.

(** ** The properties on concrete inputs *)

Lemma tiny_encoder_well_formed (training : bool) :
  ConvEmbedding.well_formed (tiny_encoder training).
Proof.
  constructor; try reflexivity.
  constructor; [|constructor].
  repeat split; cbn; lia.
Defined.

Lemma tiny_model_well_formed (training : bool) :
  GoodWillHunting.well_formed (tiny_model training).
Proof.
  exists (tiny_encoder training).
  split; [reflexivity|]. split; [apply tiny_encoder_well_formed|].
  split; [discriminate|]. split; [cbn; lia|].
  split; [repeat split | cbn; lia].
Defined.

Lemma even_kernel_size_rejected_witness :
  Z.even 2 = true
  /\ ConvEmbedding.__init__ 15000 "cpu" 128 128 6 2 (1 # 2) cpu_world
     = (Raise (AssertionError "Kernel size must be odd!"), cpu_world).
Proof.
  split; [reflexivity|].
  apply (even_kernel_size_rejected 15000 "cpu" 128 128 6 2 (1 # 2) cpu_world).
  reflexivity.
Defined.

Lemma forward_keeps_sequence_length_witness :
  exists y w',
    ConvEmbedding.forward (tiny_encoder true) two_tokens cpu_world = (Ok y, w')
    /\ shape y = [1; 2; 1].
Proof.
  apply (forward_keeps_sequence_length (tiny_encoder true) two_tokens 1 2 cpu_world).
  - apply tiny_encoder_well_formed.
  - discriminate.
  - simpl. lia.
  - reflexivity.
  - lia.
  - reflexivity.
Defined.

(** C4 as stated fails on encoders the constructor accepts with an odd
    kernel size: the one built with [n_layers = 0] raises on a one-token
    batch, and the one-layer encoder raises on a batch of empty sequences. *)
Lemma forward_fails_without_layers_and_on_empty_sequences :
  (exists enc w1 w2,
      ConvEmbedding.__init__ 1 "cpu" 1 1 0 3 (1 # 2) cpu_world = (Ok enc, w1)
      /\ ConvEmbedding.forward enc one_token w1
         = (Raise (UnboundLocalError "conved"), w2))
  /\ ConvEmbedding.forward (tiny_encoder true) (constant [1; 0] 0%Z) cpu_world
     = (Raise (RuntimeError "Kernel size can't be greater than actual input size"),
        cpu_world).
Proof.
  split.
  - eexists _, _, _. split; reflexivity.
  - reflexivity.
Qed.

Lemma train_epoch_delegates_witness :
  exists out w1,
    GoodWillHunting.forward (tiny_model true) two_tokens cpu_world = (Ok out, w1)
    /\ shape out = [1; 2; 1]
    /\ GoodWillHunting.train_epoch (tiny_model true) two_tokens
         (contiguous (constant [1; 2] 0%Z))
         (Some recording_scorer) (Some NLLLoss_sum) cpu_world
       = match register_batch recording_scorer (argmax_along out 2 (1 - 1))
                 (constant [1; 2] 0%Z) two_tokens w1 with
         | (Ok _, w2) =>
             NLLLoss_sum (reshape out [1 * 2; 1])
                         (reshape (constant [1; 2] 0%Z) [numel [1; 2]]) w2
         | (Raise e, w2) => (Raise e, w2)
         end.
Proof.
  destruct (train_epoch_delegates_to_scorer_and_criterion
              (tiny_model true) two_tokens (contiguous (constant [1; 2] 0%Z))
              recording_scorer NLLLoss_sum 1 2 cpu_world
              (tiny_model_well_formed true) eq_refl ltac:(lia) eq_refl)
    as (out & w1 & Hout & Hshape & Hrun & _).
  exists out, w1. split; [exact Hout|]. split; [exact Hshape|]. exact Hrun.
Defined.

Lemma forward_is_a_function_in_eval_mode_witness :
  GoodWillHunting.deterministic (tiny_model false) = true
  /\ exists r, forall w, GoodWillHunting.forward (tiny_model false) one_token w = (r, w).
Proof.
  split; [reflexivity|].
  apply (forward_is_a_function_in_eval_mode (tiny_model false) one_token);
    reflexivity.
Defined.

Lemma decoder_last_dimension_witness :
  exists y,
    LinearDecoder.forward plain_decoder (constant [4; 7; 1] 0%R) cpu_world
    = (Ok y, cpu_world)
    /\ shape y = [4; 7] ++ [Z.to_nat 1]
    /\ List.last (shape y) 0 = Z.to_nat (LinearDecoder.out_dim plain_decoder)
    /\ forall idx,
         elem y idx
         = affine (lin_weight (LinearDecoder.decoder plain_decoder))
                  (lin_bias (LinearDecoder.decoder plain_decoder))
                  (constant [4; 7; 1] 0%R) (Z.to_nat 1) idx.
Proof.
  apply (decoder_last_dimension_is_out_dim 1 1 plain_decoder
           (constant [4; 7; 1] 0%R) [4; 7] cpu_world).
  - repeat split.
  - reflexivity.
Defined.

Lemma highway_arguments_witness :
  exists dec w',
    LinearDecoder.__init__ 2 3 4 "tanh" cpu_world = (Ok dec, w')
    /\ LinearDecoder.highway dec = None
    /\ LinearDecoder.configured 2 3 dec
    /\ LinearDecoder.forward dec (constant [5; 2] 0%R) cpu_world
       = (Ok {| shape := [5] ++ [Z.to_nat 3];
                elem := affine (lin_weight (LinearDecoder.decoder dec))
                               (lin_bias (LinearDecoder.decoder dec))
                               (constant [5; 2] 0%R) (Z.to_nat 2) |}, cpu_world).
Proof.
  eexists _, _. split; [reflexivity|].
  pose proof (highway_arguments_are_ignored 2 3 4 "tanh" cpu_world _ _ eq_refl)
    as (Hhw & Hconf & _ & _ & _ & Hfwd & _).
  split; [exact Hhw|]. split; [exact Hconf|].
  apply (Hfwd (constant [5; 2] 0%R) [5] cpu_world). reflexivity.
Defined.

Lemma zero_layers_witness :
  exists enc w',
    ConvEmbedding.__init__ 1 "cpu" 1 1 0 3 (1 # 2) cpu_world = (Ok enc, w')
    /\ (forall src w0, exists e, fst (ConvEmbedding.forward enc src w0) = Raise e).
Proof.
  destruct (zero_layers_accepted_but_forward_fails 1 "cpu" 1 1 3 (1 # 2) cpu_world)
    as [(enc & w' & Hinit & Hfail & _) _]; try reflexivity; try lia.
  exists enc, w'. split; [exact Hinit | exact Hfail].
Defined.

Lemma model_over_LinearDecoder_witness :
  exists dec w1,
    LinearDecoder.__init__ 1 1 0 "relu" cpu_world = (Ok dec, w1)
    /\ GoodWillHunting.__init__ (ConvEncoder (tiny_encoder true)) dec "cpu" cpu_world
       = (Raise (AttributeError "LinearDecoder" "device"), cpu_world).
Proof.
  eexists _, _. split; [reflexivity|].
  exact (model_over_LinearDecoder_is_never_built
           (ConvEncoder (tiny_encoder true)) 1 1 0 "relu" cpu_world _ _
           "cpu" cpu_world eq_refl).
Defined.

Lemma nll_weight_witness :
  exists m w' nll_weight,
    GoodWillHunting.__init__ (ConvEncoder (tiny_encoder true)) tiny_decoder "cpu" cpu_world
    = (Ok m, w')
    /\ GoodWillHunting._buffers
         (fst (GoodWillHunting.run_all m
                 [GoodWillHunting.Forward one_token;
                  GoodWillHunting.Predict one_token ∅;
                  GoodWillHunting.TrainEpoch two_tokens (contiguous (constant [1; 2] 0%Z))
                    (Some recording_scorer) (Some NLLLoss_sum)] w'))
       !! "nll_weight" = Some nll_weight
    /\ shape nll_weight = [1]
    /\ forall idx, elem nll_weight idx = 1%R.
Proof.
  assert (Hdev : LinearDecoder.extra tiny_decoder !! "device" = Some (PyStr "cpu"))
    by apply lookup_insert_eq.
  assert (Hinit :
            GoodWillHunting.__init__ (ConvEncoder (tiny_encoder true)) tiny_decoder
              "cpu" cpu_world
            = (Ok (GoodWillHunting.register_buffer
                     {| GoodWillHunting.encoder_ := ConvEncoder (tiny_encoder true);
                        GoodWillHunting.decoder := tiny_decoder;
                        GoodWillHunting.device := "cpu";
                        GoodWillHunting._buffers := ∅;
                        GoodWillHunting._non_persistent_buffers_set := ∅ |}
                     "nll_weight" (constant [1] 1%R)), cpu_world)).
  { rewrite (model_init_with_device_attribute
               (ConvEncoder (tiny_encoder true)) tiny_decoder "cpu" (PyStr "cpu")
               cpu_world Hdev).
    reflexivity. }
  destruct (nll_weight_is_a_persistent_vector_of_ones _ _ _ _ _ _ Hinit
              [GoodWillHunting.Forward one_token;
               GoodWillHunting.Predict one_token ∅;
               GoodWillHunting.TrainEpoch two_tokens (contiguous (constant [1; 2] 0%Z))
                 (Some recording_scorer) (Some NLLLoss_sum)] cpu_world)
    as (t & Hrun & _ & _ & Hshape & _ & Hone).
  eexists _, _, t. split; [exact Hinit|].
  split; [exact Hrun|]. split; [exact Hshape | exact Hone].
Defined.

(** * Further properties of the code *)

(** ** What the constructor of ConvEmbedding accepts *)



Lemma nn_Conv1d_ok (c_in c_out k p : Z) (w : World) :
  (0 <= c_in)%Z -> (0 <= c_out)%Z -> (0 <= k)%Z ->
  exists c w', nn_Conv1d c_in c_out k p w = (Ok c, w').
Proof.
  intros Hi Ho Hk. unfold nn_Conv1d.
  destruct (Z.ltb_spec c_in 0); [lia|].
  destruct (Z.ltb_spec c_out 0); [lia|].
  destruct (Z.ltb_spec k 0); [lia|].
  simpl. eexists _, _. reflexivity.
Qed.

Lemma mapM_ok {A B} (f : A -> M B) :
  (forall a w, exists b w', f a w = (Ok b, w')) ->
  forall (l : list A) (w : World), exists bs w', mapM f l w = (Ok bs, w').
Proof.
  intros Hf. induction l as [|a l IH]; intros w.
  - exists [], w. reflexivity.
  - simpl. destruct (Hf a w) as (b & w1 & Hb).
    rewrite (bind_ok _ _ _ _ _ Hb).
    destruct (IH w1) as (bs & w2 & Hbs).
    rewrite (bind_ok _ _ _ _ _ Hbs).
    eexists _, _. reflexivity.
Qed.


Lemma range_nil (n : Z) : (n <= 0)%Z -> range n = [].
Proof.
  intros Hn. unfold range. replace (Z.to_nat n) with 0 by lia. reflexivity.
Qed.




(** X2: the encoder the constructor returns records its arguments, holds
    one convolution layer per requested layer (none for a non-positive
    count), each from [hid_dim] to [2 * hid_dim] channels with the given
    kernel size and padding [(kernel_size - 1) // 2], scales residuals by
    the square root of one half, and starts in training mode with the
    given dropout probability. *)
Theorem ConvEmbedding_constructor_builds :
  forall (input_dim : Z) (device : string) (emb_dim hid_dim n_layers kernel_size : Z)
         (dropout : Q) (w : World) (enc : ConvEmbedding.t) (w' : World),
    ConvEmbedding.__init__ input_dim device emb_dim hid_dim n_layers kernel_size dropout w
    = (Ok enc, w') ->
    ConvEmbedding.input_dim enc = input_dim
    /\ ConvEmbedding.device enc = device
    /\ ConvEmbedding.emb_dim enc = emb_dim
    /\ ConvEmbedding.hid_dim enc = hid_dim
    /\ ConvEmbedding.kernel_size enc = kernel_size
    /\ ConvEmbedding.scale enc = ConvEmbedding.sqrt_half
    /\ ConvEmbedding.dropout enc = {| drop_p := dropout; drop_training := true |}
    /\ length (ConvEmbedding.convs enc) = Z.to_nat n_layers
    /\ Forall (fun c =>
                 shape (conv_weight c)
                 = [Z.to_nat (2 * hid_dim); Z.to_nat hid_dim; Z.to_nat kernel_size]
                 /\ shape (conv_bias c) = [Z.to_nat (2 * hid_dim)]
                 /\ conv_padding c = ((kernel_size - 1) / 2)%Z)
              (ConvEmbedding.convs enc)
    /\ ConvEmbedding.well_formed enc.
Proof.
  intros input_dim device emb_dim hid_dim n_layers kernel_size dropout w enc w' Hinit.
  destruct (ConvEmbedding_init_inv _ _ _ _ _ _ _ _ _ _ Hinit)
    as (Hwf & Hlen & Hin & Hdev & Hdrop).
  revert Hinit. unfold ConvEmbedding.__init__, Encoder.__init__.
  unfold bind at 1. unfold ret at 1. cbn [Encoder.device Encoder.input_dim].
  destruct (Z.eqb_spec (kernel_size mod 2) 1) as [Hodd|]; [|discriminate]. cbn [negb].
  intros H.
  apply bind_inv_ok in H as (sc & w1 & Hsc & H).
  apply to_inv in Hsc as (-> & -> & _).
  apply bind_inv_ok in H as (te & w2 & Hte & H).
  apply bind_inv_ok in H as (l1 & w3 & Hl1 & H).
  apply bind_inv_ok in H as (l2 & w4 & Hl2 & H).
  apply bind_inv_ok in H as (cs & w5 & Hcs & H).
  apply bind_inv_ok in H as (dr & w6 & Hdr & [= <- _]).
  do 6 (split; [reflexivity|]).
  split; [exact Hdrop|]. split; [exact Hlen|]. split; [|exact Hwf].
  pose proof (ConvEmbedding.wf_convs _ Hwf) as Hall.
  eapply Forall_impl; [exact Hall|].
  intros c (HW & Hb & Hp & _). repeat split; assumption.
Qed.

Lemma ConvEmbedding_constructor_builds_witness :
  exists enc w',
    ConvEmbedding.__init__ 1 "cpu" 1 1 2 3 (1 # 2) cpu_world = (Ok enc, w')
    /\ length (ConvEmbedding.convs enc) = 2
    /\ drop_training (ConvEmbedding.dropout enc) = true.
Proof.
  eexists _, _. split; [reflexivity|].
  pose proof (ConvEmbedding_constructor_builds 1 "cpu" 1 1 2 3 (1 # 2) cpu_world
                _ _ eq_refl) as (_ & _ & _ & _ & _ & _ & Hdrop & Hlen & _).
  split; [exact Hlen | rewrite Hdrop; reflexivity].
Defined.

(** ** The inputs ConvEmbedding.forward accepts *)

Lemma indices_complete (shp idx : list nat) :
  Forall2 lt idx shp -> In idx (indices shp).
Proof.
  revert idx. induction shp as [|d ds IH]; intros idx Hb.
  - inversion Hb; subst. left. reflexivity.
  - inversion Hb as [|i d' js ds' Hi Hjs]; subst.
    simpl. apply in_flat_map. exists i. split.
    + apply in_seq. lia.
    + apply in_map. apply IH. exact Hjs.
Qed.

Lemma in_vocabulary_at (src : tensor Z) (V : nat) (idx : list nat) :
  in_vocabulary src V = true ->
  Forall2 lt idx (shape src) ->
  (0 <= elem src idx < Z.of_nat V)%Z.
Proof.
  unfold in_vocabulary. intros Hall Hb.
  rewrite forallb_forall in Hall.
  specialize (Hall idx (indices_complete _ _ Hb)).
  apply andb_true_iff in Hall as [H0 H1].
  apply Z.leb_le in H0. apply Z.ltb_lt in H1. lia.
Qed.

Lemma out_of_vocabulary_token_aux :
  forall (self : ConvEmbedding.t) (src : tensor Z) (idx : list nat) (w : World),
    ConvEmbedding.well_formed self ->
    Forall2 lt idx (shape src) ->
    (elem src idx < 0 \/ ConvEmbedding.input_dim self <= elem src idx)%Z ->
    ConvEmbedding.forward self src w
    = (Raise (IndexError "index out of range in self"), w).
Proof.
  intros self src idx w Hwf Hb Hout.
  unfold ConvEmbedding.forward, Embedding_forward.
  rewrite (ConvEmbedding.wf_embedding _ Hwf).
  destruct (in_vocabulary src (Z.to_nat (ConvEmbedding.input_dim self))) eqn:Hvoc.
  - pose proof (in_vocabulary_at _ _ _ Hvoc Hb) as Hin. lia.
  - reflexivity.
Qed.

(** X3: a token id outside [0, input_dim) anywhere in the batch makes
    [forward] raise the embedding's index error, before any random number
    is drawn. *)
Theorem out_of_vocabulary_token_raises :
  forall (self : ConvEmbedding.t) (src : tensor Z) (idx : list nat) (w : World),
    ConvEmbedding.well_formed self ->
    Forall2 lt idx (shape src) ->
    (elem src idx < 0 \/ ConvEmbedding.input_dim self <= elem src idx)%Z ->
    ConvEmbedding.forward self src w
    = (Raise (IndexError "index out of range in self"), w).
Proof. exact out_of_vocabulary_token_aux. Qed.

Lemma out_of_vocabulary_token_witness :
  ConvEmbedding.forward (tiny_encoder true) (constant [1; 2] 1%Z) cpu_world
  = (Raise (IndexError "index out of range in self"), cpu_world).
Proof.
  apply (out_of_vocabulary_token_raises (tiny_encoder true) (constant [1; 2] 1%Z)
           [0; 1] cpu_world).
  - apply tiny_encoder_well_formed.
  - repeat constructor.
  - right. simpl. lia.
Defined.

Lemma lift_inv {A} (r : result A) (w : World) (a : A) (w' : World) :
  lift r w = (Ok a, w') -> r = Ok a /\ w' = w.
Proof. unfold lift. intros [= -> <-]. auto. Qed.

Lemma Embedding_forward_inv (e : Embedding) (V E : nat) (input : tensor Z) (y : tensor R) :
  shape (emb_weight e) = [V; E] ->
  Embedding_forward e input = Ok y ->
  in_vocabulary input V = true /\ shape y = shape input ++ [E].
Proof.
  intros HW. unfold Embedding_forward. rewrite HW.
  destruct (in_vocabulary input V); [|discriminate].
  intros [= <-]. auto.
Qed.

Lemma Dropout_forward_shape (d : Dropout) (x : tensor R) (w : World)
    (y : tensor R) (w' : World) :
  Dropout_forward d x w = (Ok y, w') -> shape y = shape x.
Proof.
  intros H. destruct (Dropout_forward_ok d x w) as (y' & w'' & H' & Hs).
  rewrite H' in H. injection H as <- _. exact Hs.
Qed.

Lemma permute_021_inv {A} (x y : tensor A) :
  permute x [0; 2; 1] = Ok y ->
  exists a b c, shape x = [a; b; c] /\ shape y = [a; c; b].
Proof.
  unfold permute, is_axis_order.
  destruct (shape x) as [|a [|b [|c [|d rest]]]] eqn:Hs; simpl; try discriminate.
  intros [= <-]. exists a, b, c. auto.
Qed.

Lemma Conv1d_forward_inv (c : Conv1d) (Cout Cin K N C L : nat) (x y : tensor R) :
  shape (conv_weight c) = [Cout; Cin; K] ->
  shape x = [N; C; L] ->
  Conv1d_forward c x = Ok y ->
  K <= L + 2 * Z.to_nat (conv_padding c).
Proof.
  intros HW Hx. unfold Conv1d_forward. rewrite HW, Hx.
  unfold conv_checks.
  destruct (conv_padding c <? 0)%Z; [discriminate|].
  destruct (Cout <? 1); [discriminate|].
  destruct (negb (C =? Cin)); [discriminate|].
  destruct (negb (is_vector (shape (conv_bias c)) Cout)); [discriminate|].
  destruct (Nat.ltb_spec (L + 2 * Z.to_nat (conv_padding c)) K); [discriminate|].
  intros _. lia.
Qed.

(** X4: for an encoder with an odd kernel, at least one layer and a
    positive hidden width, [forward] returns exactly on the inputs of rank
    two, (batch, length), whose sequences are not empty and whose ids all
    lie in the vocabulary; on every other input it raises. *)
Theorem forward_returns_exactly_on_token_batches :
  forall (self : ConvEmbedding.t) (src : tensor Z) (w : World),
    ConvEmbedding.well_formed self ->
    ConvEmbedding.convs self <> [] ->
    (1 <= ConvEmbedding.hid_dim self)%Z ->
    (exists y w', ConvEmbedding.forward self src w = (Ok y, w'))
    <->
    (exists B L,
        shape src = [B; L] /\ 1 <= L
        /\ in_vocabulary src (Z.to_nat (ConvEmbedding.input_dim self)) = true).
Proof.
  intros self src w Hwf Hlayers Hhid. split.
  - intros (y & w' & H). unfold ConvEmbedding.forward in H.
    apply bind_inv_ok in H as (e & w0 & He & H).
    apply lift_inv in He as [He ->].
    apply (Embedding_forward_inv _ _ _ _ _ (ConvEmbedding.wf_embedding _ Hwf)) in He
      as [Hvoc Hes].
    apply bind_inv_ok in H as (d & w1 & Hd & H).
    apply Dropout_forward_shape in Hd. rewrite Hes in Hd.
    rewrite (bind_lift_ok _ _ _ _
               (Linear_forward_ok _ _ _ (shape src) d
                  (ConvEmbedding.wf_emb2hid_weight _ Hwf)
                  (ConvEmbedding.wf_emb2hid_bias _ Hwf) Hd)) in H.
    apply bind_inv_ok in H as (ci & w2 & Hci & H).
    apply lift_inv in Hci as [Hci ->].
    apply permute_021_inv in Hci as (B & L & Hd' & Hshape & Hcis).
    cbn [shape] in Hshape.
    assert (Hsrc : shape src = [B; L] /\ Hd' = Z.to_nat (ConvEmbedding.hid_dim self)).
    { destruct (shape src) as [|a [|b [|c rest]]]; simpl in Hshape;
        try discriminate Hshape.
      - injection Hshape as -> -> ->. auto.
      - destruct rest; discriminate Hshape. }
    destruct Hsrc as [Hsrc ->].
    exists B, L. split; [exact Hsrc|]. split; [|exact Hvoc].
    apply bind_inv_ok in H as (locals & w3 & Hloop & _).
    destruct (ConvEmbedding.convs self) as [|conv rest] eqn:Hconvs; [contradiction|].
    pose proof (ConvEmbedding.wf_convs _ Hwf) as Hall. rewrite Hconvs in Hall.
    inversion Hall as [|c0 r0 (HW & Hb & Hp & Hk) _]; subst.
    simpl in Hloop.
    apply bind_inv_ok in Hloop as (c1 & w4 & Hblock & _).
    unfold ConvEmbedding.conv_block in Hblock.
    apply bind_inv_ok in Hblock as (dr & w5 & Hdr & Hblock).
    apply Dropout_forward_shape in Hdr. rewrite Hcis in Hdr.
    apply bind_inv_ok in Hblock as (cv & w6 & Hcv & _).
    apply lift_inv in Hcv as [Hcv _].
    apply (Conv1d_forward_inv _ _ _ _ _ _ _ _ _ HW Hdr) in Hcv.
    destruct (odd_kernel_geometry _ (ConvEmbedding.wf_kernel _ Hwf) Hk) as [_ Hgeo].
    rewrite Hp in Hcv. lia.
  - intros (B & L & Hsrc & HL & Hvoc).
    destruct (forward_keeps_sequence_length_aux self src B L w
                Hwf Hlayers Hhid Hsrc HL Hvoc) as (y & w' & Hy & _).
    exists y, w'. exact Hy.
Qed.

Lemma forward_returns_exactly_witness :
  (exists y w', ConvEmbedding.forward (tiny_encoder true) two_tokens cpu_world = (Ok y, w'))
  /\ ~ (exists y w',
           ConvEmbedding.forward (tiny_encoder true) (constant [2] 0%Z) cpu_world
           = (Ok y, w')).
Proof.
  split.
  - apply (proj2 (forward_returns_exactly_on_token_batches
                    (tiny_encoder true) two_tokens cpu_world
                    (tiny_encoder_well_formed true) ltac:(discriminate)
                    ltac:(simpl; lia))).
    exists 1, 2. repeat split. lia.
  - intros Hok.
    apply (proj1 (forward_returns_exactly_on_token_batches
                    (tiny_encoder true) (constant [2] 0%Z) cpu_world
                    (tiny_encoder_well_formed true) ltac:(discriminate)
                    ltac:(simpl; lia))) in Hok.
    destruct Hok as (B & L & Hshape & _). discriminate Hshape.
Defined.

(** ** One convolution block *)

Lemma keep_index (d i : nat) : i < d -> (if d =? 1 then 0 else i) = i.
Proof. intros Hi. destruct (Nat.eqb_spec d 1); lia. Qed.

Lemma Conv1d_forward_eq (c : Conv1d) (Cout Cin K N L : nat) (x : tensor R) :
  shape (conv_weight c) = [Cout; Cin; K] ->
  shape (conv_bias c) = [Cout] ->
  (0 <= conv_padding c)%Z ->
  1 <= Cout ->
  K <= L + 2 * Z.to_nat (conv_padding c) ->
  shape x = [N; Cin; L] ->
  Conv1d_forward c x
  = Ok {| shape := [N; Cout; L + 2 * Z.to_nat (conv_padding c) - K + 1];
          elem := fun idx =>
            match idx with
            | [n; o; l] =>
                conv_entry (conv_weight c) (conv_bias c)
                           (fun ci t => elem x [n; ci; t]) Cin K
                           (Z.to_nat (conv_padding c)) L o l
            | _ => 0%R
            end |}.
Proof.
  intros HW Hb Hp HC HK Hx. unfold Conv1d_forward. rewrite HW, Hx.
  unfold conv_checks. rewrite Hb, is_vector_refl, Nat.eqb_refl.
  destruct (Z.ltb_spec (conv_padding c) 0) as [Hneg|_]; [lia|].
  destruct (Nat.ltb_spec Cout 1) as [Hlt|_]; [lia|].
  destruct (Nat.ltb_spec (L + 2 * Z.to_nat (conv_padding c)) K) as [Hlt|_]; [lia|].
  reflexivity.
Qed.

Lemma glu_channels_eq (x : tensor R) (N H L : nat) :
  shape x = [N; 2 * H; L] ->
  glu x 1
  = Ok {| shape := [N; H; L];
          elem := fun idx =>
            (elem x idx * sigmoid (elem x (alter (Nat.add H) 1%nat idx)))%R |}.
Proof.
  intros Hx. unfold glu. rewrite Hx.
  change ([N; 2 * H; L] !! 1) with (Some (2 * H)).
  assert (Heven : Nat.even (2 * H) = true).
  { apply Nat.even_spec. exists H. reflexivity. }
  cbv beta iota. rewrite Heven.
  change (<[1 := 2 * H / 2]> [N; 2 * H; L]) with [N; 2 * H / 2; L].
  replace (2 * H / 2) with H by (rewrite Nat.mul_comm, Nat.div_mul; lia).
  reflexivity.
Qed.

Lemma pointwise_eq (f : R -> R -> R) (x y : tensor R) (s s' r : list nat) :
  shape x = s -> shape y = s' -> broadcast_shapes s s' = Some r ->
  pointwise f x y
  = Ok {| shape := r;
          elem := fun idx => f (elem x (bcast_idx s idx)) (elem y (bcast_idx s' idx)) |}.
Proof.
  intros Hx Hy Hr. unfold pointwise. rewrite Hx, Hy, Hr. reflexivity.
Qed.

Lemma conv_block_entries :
  forall (self : ConvEmbedding.t) (conv : Conv1d) (conv_input : tensor R)
         (N L : nat) (w : World),
    ConvEmbedding.well_formed self ->
    (1 <= ConvEmbedding.hid_dim self)%Z ->
    ConvEmbedding.conv_layer_ok self conv ->
    1 <= L ->
    shape conv_input = [N; Z.to_nat (ConvEmbedding.hid_dim self); L] ->
    exists d conved w',
      Dropout_forward (ConvEmbedding.dropout self) conv_input w = (Ok d, w')
      /\ ConvEmbedding.conv_block self conv conv_input w = (Ok conved, w')
      /\ shape conved = [N; Z.to_nat (ConvEmbedding.hid_dim self); L]
      /\ forall n h l,
           n < N -> h < Z.to_nat (ConvEmbedding.hid_dim self) -> l < L ->
           let c := fun o =>
                      conv_entry (conv_weight conv) (conv_bias conv)
                                 (fun ci t => elem d [n; ci; t])
                                 (Z.to_nat (ConvEmbedding.hid_dim self))
                                 (Z.to_nat (ConvEmbedding.kernel_size self))
                                 (Z.to_nat (conv_padding conv)) L o l in
           elem conved [n; h; l]
           = ((c h * sigmoid (c (Z.to_nat (ConvEmbedding.hid_dim self) + h)%nat)
               + elem conv_input [n; h; l]) * elem (ConvEmbedding.scale self) [0%nat])%R.
Proof.
  intros self conv x N L w Hwf Hhid Hconv HL Hx.
  destruct (Dropout_forward_ok (ConvEmbedding.dropout self) x w) as (d & w1 & Hd & Hds).
  exists d.
  pose proof Hconv as (HW & Hb & Hp & Hk).
  destruct (odd_kernel_geometry _ (ConvEmbedding.wf_kernel _ Hwf) Hk) as [Hp0 Hgeo].
  set (H := Z.to_nat (ConvEmbedding.hid_dim self)) in *.
  assert (H2 : Z.to_nat (2 * ConvEmbedding.hid_dim self) = 2 * H) by (subst H; lia).
  rewrite H2 in HW, Hb. rewrite Hx in Hds.
  unfold ConvEmbedding.conv_block.
  rewrite (bind_ok _ _ _ _ _ Hd).
  assert (Hlen : L + 2 * Z.to_nat (conv_padding conv)
                 - Z.to_nat (ConvEmbedding.kernel_size self) + 1 = L)
    by (rewrite Hp; lia).
  rewrite (bind_lift_ok _ _ _ _
             (Conv1d_forward_eq conv (2 * H) H _ N L d HW Hb
                ltac:(rewrite Hp; exact Hp0) ltac:(subst H; lia)
                ltac:(rewrite Hp; lia) Hds)).
  rewrite Hlen.
  erewrite bind_lift_ok by (apply (glu_channels_eq _ N H L); reflexivity).
  erewrite bind_lift_ok
    by (apply (pointwise_eq Rplus _ x [N; H; L] [N; H; L] [N; H; L]);
        [reflexivity | exact Hx | apply broadcast_shapes_same]).
  erewrite bind_lift_ok
    by (apply (pointwise_eq Rmult _ (ConvEmbedding.scale self) [N; H; L] [1] [N; H; L]);
        [reflexivity | exact (ConvEmbedding.wf_scale _ Hwf)
         | apply broadcast_shapes_one]).
  eexists _, w1. split; [exact Hd|]. split; [reflexivity|]. split; [reflexivity|].
  intros n h l Hn Hh Hl.
  cbn [elem bcast_idx zip_with drop length Nat.sub alter list_alter].
  rewrite !(keep_index N n Hn), !(keep_index H h Hh), !(keep_index L l Hl).
  reflexivity.
Qed.


(** X5: one pass through the loop body computes a gated residual.  With
    [d] the dropped-out input and [c] its convolution to twice the hidden
    width, entry (n, h, l) of the new [conved] is
    [(c[n, h, l] * sigmoid (c[n, hid + h, l]) + conv_input[n, h, l]) * sqrt 0.5]:
    the second half of the channels gates the first, the residual adds the
    input as it was before dropout, and the sum is scaled. *)
Theorem conv_block_is_a_scaled_gated_residual :
  forall (self : ConvEmbedding.t) (conv : Conv1d) (conv_input : tensor R)
         (N L : nat) (w : World),
    ConvEmbedding.well_formed self ->
    ConvEmbedding.scale self = ConvEmbedding.sqrt_half ->
    (1 <= ConvEmbedding.hid_dim self)%Z ->
    ConvEmbedding.conv_layer_ok self conv ->
    1 <= L ->
    shape conv_input = [N; Z.to_nat (ConvEmbedding.hid_dim self); L] ->
    exists d conved w',
      Dropout_forward (ConvEmbedding.dropout self) conv_input w = (Ok d, w')
      /\ ConvEmbedding.conv_block self conv conv_input w = (Ok conved, w')
      /\ shape conved = [N; Z.to_nat (ConvEmbedding.hid_dim self); L]
      /\ forall n h l,
           n < N -> h < Z.to_nat (ConvEmbedding.hid_dim self) -> l < L ->
           let c := fun o =>
                      conv_entry (conv_weight conv) (conv_bias conv)
                                 (fun ci t => elem d [n; ci; t])
                                 (Z.to_nat (ConvEmbedding.hid_dim self))
                                 (Z.to_nat (ConvEmbedding.kernel_size self))
                                 (Z.to_nat (conv_padding conv)) L o l in
           elem conved [n; h; l]
           = ((c h * sigmoid (c (Z.to_nat (ConvEmbedding.hid_dim self) + h)%nat)
               + elem conv_input [n; h; l]) * sqrt (1 / 2))%R.
Proof.
  intros self conv x N L w Hwf Hscale Hhid Hconv HL Hx.
  destruct (conv_block_entries self conv x N L w Hwf Hhid Hconv HL Hx)
    as (d & conved & w' & Hd & Hblock & Hshape & Hentries).
  exists d, conved, w'. split; [exact Hd|]. split; [exact Hblock|].
  split; [exact Hshape|].
  intros n h l Hn Hh Hl. cbv zeta.
  rewrite (Hentries n h l Hn Hh Hl), Hscale. reflexivity.
Qed.

Lemma conv_block_witness :
  exists d conved w',
    Dropout_forward (ConvEmbedding.dropout (tiny_encoder false))
                    (constant [1; 1; 2] 1%R) cpu_world = (Ok d, w')
    /\ ConvEmbedding.conv_block (tiny_encoder false)
         {| conv_weight := constant [2; 1; 1] 0%R;
            conv_bias := constant [2] 0%R;
            conv_padding := 0 |}
         (constant [1; 1; 2] 1%R) cpu_world = (Ok conved, w')
    /\ shape conved = [1; 1; 2].
Proof.
  destruct (conv_block_is_a_scaled_gated_residual
              (tiny_encoder false)
              {| conv_weight := constant [2; 1; 1] 0%R;
                 conv_bias := constant [2] 0%R;
                 conv_padding := 0 |}
              (constant [1; 1; 2] 1%R) 1 2 cpu_world)
    as (d & conved & w' & Hd & Hblock & Hshape & _).
  - apply tiny_encoder_well_formed.
  - reflexivity.
  - simpl. lia.
  - repeat split; simpl; lia.
  - lia.
  - reflexivity.
  - exists d, conved, w'. auto.
Defined.

(** ** The composite model *)

(** X6: a model made of a well-formed convolutional encoder and a decoder
    of matching width gives, for every batch of non-empty in-vocabulary
    sequences, one score per class for every position of every batch
    element: scores of shape (batch, length, out_dim). *)
Theorem model_scores_every_position :
  forall (self : GoodWillHunting.t) (src : tensor Z) (B L : nat) (w : World),
    GoodWillHunting.well_formed self ->
    shape src = [B; L] ->
    1 <= L ->
    in_vocabulary src (GoodWillHunting.vocabulary self) = true ->
    exists out w1,
      GoodWillHunting.forward self src w = (Ok out, w1)
      /\ shape out
         = [B; L; Z.to_nat (LinearDecoder.out_dim (GoodWillHunting.decoder self))].
Proof. exact model_forward_ok. Qed.

Lemma model_scores_witness :
  exists out w1,
    GoodWillHunting.forward (tiny_model true) two_tokens cpu_world = (Ok out, w1)
    /\ shape out = [1; 2; 1].
Proof.
  apply (model_scores_every_position (tiny_model true) two_tokens 1 2 cpu_world).
  - apply tiny_model_well_formed.
  - reflexivity.
  - lia.
  - reflexivity.
Defined.






(** ** train_epoch and predict, step by step *)

(** X9: the default arguments of [train_epoch] cannot be used.  Without a
    scorer the call raises an attribute error, after the forward pass has
    run and drawn its random numbers.  With a scorer but no criterion the
    batch is first registered with the scorer, the two tensors are then
    flattened, which raises when the layout of the targets does not admit
    the view, and only then the type error of calling [None] is raised: in
    both cases the registration stays done. *)
Theorem train_epoch_without_collaborators :
  forall (self : GoodWillHunting.t) (src : tensor Z) (trg : strided Z)
         (B L : nat) (w : World),
    GoodWillHunting.well_formed self ->
    shape src = [B; L] ->
    1 <= L ->
    in_vocabulary src (GoodWillHunting.vocabulary self) = true ->
    exists out w1,
      GoodWillHunting.forward self src w = (Ok out, w1)
      /\ (forall criterion,
             GoodWillHunting.train_epoch self src trg None criterion w
             = (Raise (AttributeError "NoneType" "register_batch"), w1))
      /\ (forall scorer,
             GoodWillHunting.train_epoch self src trg (Some scorer) None w
             = match register_batch scorer
                       (argmax_along out 2
                          (Z.to_nat (LinearDecoder.out_dim
                                       (GoodWillHunting.decoder self)) - 1))
                       (values trg) src w1 with
               | (Ok _, w2) =>
                   if viewable (shape (values trg)) (strides trg)
                               [numel (shape (values trg))]
                   then (Raise (TypeError "'NoneType' object is not callable"), w2)
                   else
                     (Raise (RuntimeError
                               "view size is not compatible with input tensor's size and stride"),
                      w2)
               | (Raise e, w2) => (Raise e, w2)
               end).
Proof.
  intros self src trg B L w Hwf Hsrc HL Hvoc.
  destruct (model_forward_ok self src B L w Hwf Hsrc HL Hvoc) as (out & w1 & Hout & Hs).
  destruct Hwf as (_ & _ & _ & _ & _ & _ & Hclasses).
  exists out, w1. split; [exact Hout|]. split.
  - intros criterion.
    apply (train_epoch_unfolded self src trg None criterion B L w out w1 Hout Hs Hclasses).
  - intros scorer.
    apply (train_epoch_unfolded self src trg (Some scorer) None B L w out w1
             Hout Hs Hclasses).
Qed.

Lemma train_epoch_without_collaborators_witness :
  exists out w1,
    GoodWillHunting.forward (tiny_model true) two_tokens cpu_world = (Ok out, w1)
    /\ GoodWillHunting.train_epoch (tiny_model true) two_tokens
         (contiguous (constant [1; 2] 0%Z)) None None cpu_world
       = (Raise (AttributeError "NoneType" "register_batch"), w1)
    /\ GoodWillHunting.train_epoch (tiny_model true) two_tokens
         (contiguous (constant [1; 2] 0%Z)) (Some recording_scorer) None cpu_world
       = (Raise (TypeError "'NoneType' object is not callable"),
          {| rng := rng w1;
             device_usable := device_usable w1;
             scored := scored w1
                       ++ [(argmax_along out 2 0, constant [1; 2] 0%Z, two_tokens)] |}).
Proof.
  destruct (train_epoch_without_collaborators
              (tiny_model true) two_tokens (contiguous (constant [1; 2] 0%Z))
              1 2 cpu_world
              (tiny_model_well_formed true) eq_refl ltac:(lia) eq_refl)
    as (out & w1 & Hout & Hnone & Hsome).
  exists out, w1. split; [exact Hout|]. split; [apply Hnone|].
  exact (Hsome recording_scorer).
Defined.

Lemma div_mod_block (q r m : nat) :
  r < m -> (q * m + r) / m = q /\ (q * m + r) mod m = r.
Proof.
  intros Hr. split.
  - symmetry. apply (Nat.div_unique _ _ _ r); lia.
  - symmetry. apply (Nat.mod_unique _ _ q); lia.
Qed.

Lemma unravel_ravel_rows (B L C b l c : nat) :
  l < L -> c < C ->
  unravel [B; L; C] (ravel [B * L; C] [b * L + l; c]) = [b; l; c].
Proof.
  intros Hl Hc. cbn [ravel unravel numel fold_right].
  rewrite !Nat.mul_1_r, !Nat.add_0_r, Nat.div_1_r.
  assert (Hrest : l * C + c < L * C) by nia.
  replace ((b * L + l) * C + c) with (b * (L * C) + (l * C + c)) by lia.
  destruct (div_mod_block b (l * C + c) (L * C) Hrest) as [-> ->].
  destruct (div_mod_block l c C Hc) as [-> ->].
  reflexivity.
Qed.

Lemma unravel_ravel_flat (B L b l : nat) :
  l < L ->
  unravel [B; L] (ravel [numel [B; L]] [b * L + l]) = [b; l].
Proof.
  intros Hl. cbn [ravel unravel numel fold_right].
  rewrite !Nat.mul_1_r, !Nat.add_0_r, Nat.div_1_r.
  destruct (div_mod_block b l L Hl) as [-> ->].
  reflexivity.
Qed.

(** X10: when the targets have the shape of the input and a memory layout
    that admits the flattening view, as every contiguous tensor has, the two
    tensors [train_epoch] hands to the criterion line up position by
    position: row [b * L + l] of the flattened scores holds the scores of
    position [l] of batch element [b], and entry [b * L + l] of the
    flattened targets is the target of that same position. *)
Theorem train_epoch_pairs_scores_with_targets :
  forall (self : GoodWillHunting.t) (src : tensor Z) (trg : strided Z)
         (scorer : Scorer) (criterion : Criterion) (B L : nat) (w : World),
    GoodWillHunting.well_formed self ->
    shape src = [B; L] ->
    1 <= L ->
    in_vocabulary src (GoodWillHunting.vocabulary self) = true ->
    shape (values trg) = [B; L] ->
    viewable (shape (values trg)) (strides trg) [numel (shape (values trg))] = true ->
    let C := Z.to_nat (LinearDecoder.out_dim (GoodWillHunting.decoder self)) in
    exists out w1 flat_out flat_trg,
      GoodWillHunting.forward self src w = (Ok out, w1)
      /\ GoodWillHunting.train_epoch self src trg (Some scorer) (Some criterion) w
         = match register_batch scorer (argmax_along out 2 (C - 1)) (values trg) src w1 with
           | (Ok _, w2) => criterion flat_out flat_trg w2
           | (Raise e, w2) => (Raise e, w2)
           end
      /\ shape flat_out = [B * L; C]
      /\ shape flat_trg = [B * L]
      /\ forall b l,
           b < B -> l < L ->
           elem flat_trg [b * L + l] = elem (values trg) [b; l]
           /\ forall c, c < C -> elem flat_out [b * L + l; c] = elem out [b; l; c].
Proof.
  intros self src trg scorer criterion B L w Hwf Hsrc HL Hvoc Htrg Hview C.
  destruct (model_forward_ok self src B L w Hwf Hsrc HL Hvoc) as (out & w1 & Hout & Hs).
  destruct Hwf as (_ & _ & _ & _ & _ & _ & Hclasses).
  exists out, w1, (reshape out [B * L; C]),
         (reshape (values trg) [numel (shape (values trg))]).
  split; [exact Hout|]. split.
  - rewrite (train_epoch_unfolded self src trg (Some scorer) (Some criterion) B L w out w1
               Hout Hs Hclasses).
    rewrite Hview. reflexivity.
  - split; [reflexivity|]. split.
    + cbn [reshape shape]. rewrite Htrg. cbn [numel fold_right].
      rewrite Nat.mul_1_r. reflexivity.
    + intros b l Hb Hl. unfold reshape. cbn [elem]. rewrite Htrg, Hs. split.
      * rewrite (unravel_ravel_flat B L b l Hl). reflexivity.
      * intros c Hc. fold C. rewrite (unravel_ravel_rows B L C b l c Hl Hc). reflexivity.
Qed.

Lemma train_epoch_pairs_witness :
  exists out w1 flat_out flat_trg,
    GoodWillHunting.forward (tiny_model true) two_tokens cpu_world = (Ok out, w1)
    /\ shape flat_out = [1 * 2; 1]
    /\ shape flat_trg = [1 * 2]
    /\ elem flat_trg [0 * 2 + 1] = elem (constant [1; 2] 0%Z) [0; 1]
    /\ elem flat_out [0 * 2 + 1; 0] = elem out [0; 1; 0].
Proof.
  destruct (train_epoch_pairs_scores_with_targets
              (tiny_model true) two_tokens (contiguous (constant [1; 2] 0%Z))
              recording_scorer NLLLoss_sum 1 2 cpu_world
              (tiny_model_well_formed true) eq_refl ltac:(lia) eq_refl eq_refl eq_refl)
    as (out & w1 & fo & ft & Hout & _ & Hfo & Hft & Hpair).
  exists out, w1, fo, ft.
  destruct (Hpair 0 1 ltac:(lia) ltac:(lia)) as [Ht Ho].
  split; [exact Hout|]. split; [exact Hfo|]. split; [exact Hft|].
  split; [exact Ht | apply Ho; simpl; lia].
Defined.

(** ** The arg-max over the class axis *)

Lemma argmax_fold_spec (f : nat -> R) (m : nat) :
  forall (a best : nat),
    best < a ->
    (forall j, j < a -> (f j <= f best)%R) ->
    (forall j, j < best -> (f j < f best)%R) ->
    let k := fold_left (fun best k => if Rlt_dec (f best) (f k) then k else best)
                       (seq a m) best in
    k < a + m
    /\ (forall j, j < a + m -> (f j <= f k)%R)
    /\ (forall j, j < k -> (f j < f k)%R).
Proof.
  induction m as [|m IH]; intros a best Hlt Hmax Hfirst.
  - simpl. rewrite Nat.add_0_r. auto.
  - cbn [seq fold_left].
    replace (a + S m) with (S a + m) by lia.
    destruct (Rlt_dec (f best) (f a)) as [Hbetter|Hnot].
    + apply IH.
      * lia.
      * intros j Hj. destruct (Nat.eq_dec j a) as [->|Hne]; [lra|].
        specialize (Hmax j ltac:(lia)). lra.
      * intros j Hj. specialize (Hmax j Hj). lra.
    + apply IH.
      * lia.
      * intros j Hj. destruct (Nat.eq_dec j a) as [->|Hne]; [lra|].
        apply Hmax. lia.
      * exact Hfirst.
Qed.

Lemma argmax_upto_spec (f : nat -> R) (n : nat) :
  argmax_upto f n <= n
  /\ (forall j, j <= n -> (f j <= f (argmax_upto f n))%R)
  /\ (forall j, j < argmax_upto f n -> (f j < f (argmax_upto f n))%R).
Proof.
  unfold argmax_upto.
  destruct (argmax_fold_spec f n 1 0) as (Hk & Hmax & Hfirst).
  - lia.
  - intros j Hj. replace j with 0 by lia. lra.
  - intros j Hj. lia.
  - split; [lia|]. split; [|exact Hfirst].
    intros j Hj. apply Hmax. lia.
Qed.

(** X11: the predictions [train_epoch] registers and [predict] would map
    to names are taken along the class axis: for scores of shape (batch,
    length, classes) there is one prediction per position, it is a class
    index in [0, classes), no class scores higher at that position, and
    among equal scores the lowest index is taken. *)
Theorem argmax_over_classes_picks_the_first_best_class :
  forall (out : tensor R) (B L C : nat),
    shape out = [B; L; C] ->
    1 <= C ->
    exists predicted,
      argmax out 2 = Ok predicted
      /\ shape predicted = [B; L]
      /\ forall b l,
           (0 <= elem predicted [b; l] < Z.of_nat C)%Z
           /\ (forall c, c < C ->
                  (elem out [b; l; c]
                   <= elem out [b; l; Z.to_nat (elem predicted [b; l])])%R)
           /\ (forall c, c < Z.to_nat (elem predicted [b; l]) ->
                  (elem out [b; l; c]
                   < elem out [b; l; Z.to_nat (elem predicted [b; l])])%R).
Proof.
  intros out B L C Hs HC.
  exists (argmax_along out 2 (C - 1)).
  split; [apply (argmax_classes_ok out B L C Hs HC)|].
  split; [unfold argmax_along; cbn [shape]; rewrite Hs; reflexivity|].
  intros b l. unfold argmax_along. cbn [elem take drop app].
  set (f := fun k => elem out [b; l; k]).
  destruct (argmax_upto_spec f (C - 1)) as (Hk & Hmax & Hfirst).
  rewrite Nat2Z.id. split; [lia|]. split.
  - intros c Hc. apply (Hmax c). lia.
  - exact Hfirst.
Qed.

Lemma argmax_over_classes_witness :
  exists predicted,
    argmax (constant [2; 3; 4] 0%R) 2 = Ok predicted
    /\ shape predicted = [2; 3]
    /\ elem predicted [1; 2] = 0%Z.
Proof.
  destruct (argmax_over_classes_picks_the_first_best_class
              (constant [2; 3; 4] 0%R) 2 3 4 eq_refl ltac:(lia))
    as (predicted & Harg & Hshape & Hspec).
  exists predicted. split; [exact Harg|]. split; [exact Hshape|].
  destruct (Hspec 1 2) as (Hrange & _ & Hfirst).
  destruct (Z.to_nat (elem predicted [1; 2])) as [|k] eqn:Hk; [lia|].
  specialize (Hfirst 0 ltac:(lia)). simpl in Hfirst. lra.
Defined.

(** X12: what [predict] does with the scores, taken by itself: for scores of
    shape (batch, length, classes) it returns the empty list when the batch
    is empty, and otherwise raises a type error on the first batch
    element, whose list of class indices cannot be looked up in the
    mapping; no fallback label is ever produced on this path. *)
Theorem predict_body_cannot_look_up_a_sequence :
  forall (out : tensor R) (B L C : nat) (classnames : gmap Z string) (w : World),
    shape out = [B; L; C] ->
    1 <= C ->
    GoodWillHunting.predict_labels out classnames w
    = (if B =? 0 then Ok [] else Raise (TypeError "unhashable type: 'list'"), w).
Proof.
  intros out B L C classnames w Hs HC.
  destruct B as [|b].
  - unfold GoodWillHunting.predict_labels.
    rewrite (bind_lift_ok _ _ _ _ (argmax_classes_ok out 0 L C Hs HC)).
    unfold tolist, argmax_along. cbn [shape elem]. rewrite Hs. reflexivity.
  - apply (predict_labels_unhashable out (S b) L C classnames w Hs); lia.
Qed.

Lemma predict_body_witness :
  GoodWillHunting.predict_labels (constant [2; 3; 4] 0%R) {[0%Z := "A"]} cpu_world
  = (Raise (TypeError "unhashable type: 'list'"), cpu_world).
Proof.
  apply (predict_body_cannot_look_up_a_sequence
           (constant [2; 3; 4] 0%R) 2 3 4 {[0%Z := "A"]} cpu_world eq_refl).
  lia.
Defined.

(** ** Batch elements are encoded independently *)

Lemma Rsum_ext_below (n : nat) (f g : nat -> R) :
  (forall k, k < n -> f k = g k) -> Rsum n f = Rsum n g.
Proof.
  unfold Rsum. intros Hfg.
  assert (Hgen : forall a m, (forall k, a <= k < a + m -> f k = g k) ->
                 fold_right (fun k acc => (f k + acc)%R) 0%R (seq a m)
                 = fold_right (fun k acc => (g k + acc)%R) 0%R (seq a m)).
  { intros a m. revert a. induction m as [|m IH]; intros a Hk; [reflexivity|].
    cbn [seq fold_right]. rewrite (Hk a) by lia. rewrite (IH (S a)); [reflexivity|].
    intros k Hk'. apply Hk. lia. }
  apply Hgen. intros k Hk. apply Hfg. lia.
Qed.

Lemma padded_ext (x x' : nat -> R) (P L t : nat) :
  (forall i, i < L -> x i = x' i) -> padded x P L t = padded x' P L t.
Proof.
  intros Hx. unfold padded.
  destruct (Nat.leb_spec P t); destruct (Nat.ltb_spec t (P + L)); cbn [andb];
    try reflexivity.
  apply Hx. lia.
Qed.

Lemma conv_entry_ext (W b : tensor R) (x x' : nat -> nat -> R) (Cin K P L o l : nat) :
  (forall ci t, ci < Cin -> t < L -> x ci t = x' ci t) ->
  conv_entry W b x Cin K P L o l = conv_entry W b x' Cin K P L o l.
Proof.
  intros Hx. unfold conv_entry. f_equal.
  apply Rsum_ext_below. intros ci Hci.
  apply Rsum_ext_below. intros j Hj.
  f_equal. apply padded_ext. intros i Hi. apply Hx; assumption.
Qed.

Lemma Embedding_forward_eq (e : Embedding) (V E : nat) (input : tensor Z) :
  shape (emb_weight e) = [V; E] ->
  in_vocabulary input V = true ->
  Embedding_forward e input
  = Ok {| shape := shape input ++ [E];
          elem := fun idx =>
            elem (emb_weight e) [Z.to_nat (elem input (init_idx idx)); last_idx idx] |}.
Proof.
  intros HW Hin. unfold Embedding_forward. rewrite HW, Hin. reflexivity.
Qed.

Lemma permute_021_eq {A} (x : tensor A) (a b c : nat) :
  shape x = [a; b; c] ->
  permute x [0; 2; 1]
  = Ok {| shape := [a; c; b];
          elem := fun idx =>
            elem x (map (fun j => nth (index_of j [0; 2; 1]) idx 0) (seq 0 3)) |}.
Proof.
  intros Hx. unfold permute. rewrite Hx. reflexivity.
Qed.

Section BatchRows.

Variable self : ConvEmbedding.t.
Hypothesis Hwf : ConvEmbedding.well_formed self.
Hypothesis Hhid : (1 <= ConvEmbedding.hid_dim self)%Z.
Hypothesis Heval : drop_training (ConvEmbedding.dropout self) = false.

Let H := Z.to_nat (ConvEmbedding.hid_dim self).

Variables (b b' L : nat).

(** Row [b] of one hidden sequence against row [b'] of another. *)
Let same_rows (x x' : tensor R) : Prop :=
  forall h l, h < H -> l < L -> elem x [b; h; l] = elem x' [b'; h; l].

Lemma conv_block_rows (conv : Conv1d) (x x' : tensor R) (N N' : nat) (w : World) :
  ConvEmbedding.conv_layer_ok self conv ->
  1 <= L -> b < N -> b' < N' ->
  shape x = [N; H; L] -> shape x' = [N'; H; L] ->
  same_rows x x' ->
  exists y y',
    ConvEmbedding.conv_block self conv x w = (Ok y, w)
    /\ ConvEmbedding.conv_block self conv x' w = (Ok y', w)
    /\ shape y = [N; H; L] /\ shape y' = [N'; H; L]
    /\ same_rows y y'.
Proof.
  intros Hconv HL Hb Hb' Hx Hx' Hrows.
  destruct (conv_block_entries self conv x N L w Hwf Hhid Hconv HL Hx)
    as (d & y & w1 & Hd & Hy & Hys & Hye).
  destruct (conv_block_entries self conv x' N' L w Hwf Hhid Hconv HL Hx')
    as (d' & y' & w1' & Hd' & Hy' & Hys' & Hye').
  rewrite (Dropout_forward_eval _ x Heval) in Hd.
  rewrite (Dropout_forward_eval _ x' Heval) in Hd'.
  injection Hd as <- <-. injection Hd' as <- <-.
  exists y, y'. split; [exact Hy|]. split; [exact Hy'|].
  split; [exact Hys|]. split; [exact Hys'|].
  intros h l Hh Hl.
  rewrite (Hye b h l Hb Hh Hl), (Hye' b' h l Hb' Hh Hl). cbv zeta.
  rewrite (Hrows h l Hh Hl).
  rewrite (conv_entry_ext _ _ (fun ci t => elem x [b; ci; t])
             (fun ci t => elem x' [b'; ci; t]) _ _ _ _ h l)
    by (intros ci t Hci Ht; apply Hrows; assumption).
  rewrite (conv_entry_ext _ _ (fun ci t => elem x [b; ci; t])
             (fun ci t => elem x' [b'; ci; t]) _ _ _ _ (_ + h) l)
    by (intros ci t Hci Ht; apply Hrows; assumption).
  reflexivity.
Qed.

Lemma conv_loop_rows (layers : list Conv1d) :
  Forall (ConvEmbedding.conv_layer_ok self) layers ->
  forall (conved conved' : option (tensor R)) (x x' : tensor R) (N N' : nat) (w : World),
    1 <= L -> b < N -> b' < N' ->
    shape x = [N; H; L] -> shape x' = [N'; H; L] ->
    same_rows x x' ->
    (layers = [] ->
     exists c c', conved = Some c /\ conved' = Some c'
                  /\ shape c = [N; H; L] /\ shape c' = [N'; H; L]
                  /\ same_rows c c') ->
    exists y y' rest rest',
      ConvEmbedding.conv_loop self layers conved x w = (Ok (Some y, rest), w)
      /\ ConvEmbedding.conv_loop self layers conved' x' w = (Ok (Some y', rest'), w)
      /\ shape y = [N; H; L] /\ shape y' = [N'; H; L]
      /\ same_rows y y'.
Proof.
  induction 1 as [|conv layers Hconv Hall IH];
    intros conved conved' x x' N N' w HL Hb Hb' Hx Hx' Hrows Hnil.
  - destruct (Hnil eq_refl) as (c & c' & -> & -> & Hcs & Hcs' & Hc).
    exists c, c', x, x'. repeat split; assumption.
  - simpl.
    destruct (conv_block_rows conv x x' N N' w Hconv HL Hb Hb' Hx Hx' Hrows)
      as (y & y' & Hy & Hy' & Hys & Hys' & Hyrows).
    rewrite (bind_ok _ _ _ _ _ Hy), (bind_ok _ _ _ _ _ Hy').
    apply (IH (Some y) (Some y') y y' N N' w HL Hb Hb' Hys Hys' Hyrows).
    intros _. exists y, y'. auto.
Qed.

End BatchRows.

Lemma bind_ret {A B} (a : A) (k : A -> M B) (w : World) : bind (ret a) k w = k a w.
Proof. reflexivity. Qed.

Lemma forward_eval_before_the_loop
    (self : ConvEmbedding.t) (src : tensor Z) (B L : nat) (w : World) :
  ConvEmbedding.well_formed self ->
  drop_training (ConvEmbedding.dropout self) = false ->
  shape src = [B; L] ->
  in_vocabulary src (Z.to_nat (ConvEmbedding.input_dim self)) = true ->
  exists conv_input,
    shape conv_input = [B; Z.to_nat (ConvEmbedding.hid_dim self); L]
    /\ (forall b h l,
           elem conv_input [b; h; l]
           = (Rsum (Z.to_nat (ConvEmbedding.emb_dim self))
                (fun k =>
                   elem (emb_weight (ConvEmbedding.tok_embedding self))
                        [Z.to_nat (elem src [b; l]); k]
                   * elem (lin_weight (ConvEmbedding.emb2hid self)) [h; k])
              + elem (lin_bias (ConvEmbedding.emb2hid self)) [h])%R)
    /\ ConvEmbedding.forward self src w
       = bind (ConvEmbedding.conv_loop self (ConvEmbedding.convs self) None conv_input)
              (fun locals =>
                 match fst locals with
                 | None => raise (UnboundLocalError "conved")
                 | Some conved =>
                     bind (lift (permute conved [0; 2; 1]))
                          (fun back => lift (Linear_forward (ConvEmbedding.hid2emb self) back))
                 end) w.
Proof.
  intros Hwf Heval Hsrc Hvoc.
  unfold ConvEmbedding.forward.
  rewrite (bind_lift_ok _ _ _ _
             (Embedding_forward_eq _ _ _ src (ConvEmbedding.wf_embedding _ Hwf) Hvoc)).
  rewrite (Dropout_forward_eval _ _ Heval), bind_ret, Hsrc.
  erewrite bind_lift_ok
    by (eapply (Linear_forward_ok _ _ _ [B; L]);
        [apply (ConvEmbedding.wf_emb2hid_weight _ Hwf)
        | apply (ConvEmbedding.wf_emb2hid_bias _ Hwf) | reflexivity]).
  erewrite bind_lift_ok
    by (eapply (permute_021_eq _ B L (Z.to_nat (ConvEmbedding.hid_dim self))); reflexivity).
  eexists. split; [|split]; cycle 2.
  - reflexivity.
  - reflexivity.
  - intros b h l. reflexivity.
Qed.

(** X13: in evaluation mode the encoding of a sequence does not depend on
    the batch it travels in: if row [b] of one batch and row [b'] of another
    hold the same token ids, the two forward passes return the same vectors
    for those rows, whatever the other rows and the batch sizes are. *)
Theorem batch_elements_are_encoded_independently :
  forall (self : ConvEmbedding.t) (src src' : tensor Z) (B B' L b b' : nat) (w : World),
    ConvEmbedding.well_formed self ->
    ConvEmbedding.convs self <> [] ->
    (1 <= ConvEmbedding.hid_dim self)%Z ->
    drop_training (ConvEmbedding.dropout self) = false ->
    shape src = [B; L] -> shape src' = [B'; L] -> 1 <= L ->
    in_vocabulary src (Z.to_nat (ConvEmbedding.input_dim self)) = true ->
    in_vocabulary src' (Z.to_nat (ConvEmbedding.input_dim self)) = true ->
    b < B -> b' < B' ->
    (forall l, l < L -> elem src [b; l] = elem src' [b'; l]) ->
    exists y y',
      ConvEmbedding.forward self src w = (Ok y, w)
      /\ ConvEmbedding.forward self src' w = (Ok y', w)
      /\ forall l e, l < L -> elem y [b; l; e] = elem y' [b'; l; e].
Proof.
  intros self src src' B B' L b b' w Hwf Hlayers Hhid Heval Hsrc Hsrc' HL
         Hvoc Hvoc' Hb Hb' Htokens.
  destruct (forward_eval_before_the_loop self src B L w Hwf Heval Hsrc Hvoc)
    as (ci & Hcis & Hcie & Hfwd).
  destruct (forward_eval_before_the_loop self src' B' L w Hwf Heval Hsrc' Hvoc')
    as (ci' & Hcis' & Hcie' & Hfwd').
  rewrite Hfwd, Hfwd'.
  destruct (conv_loop_rows self Hwf Hhid Heval b b' L _ (ConvEmbedding.wf_convs _ Hwf)
              None None ci ci' B B' w HL Hb Hb' Hcis Hcis')
    as (y & y' & rest & rest' & Hloop & Hloop' & Hys & Hys' & Hrows).
  { intros h l Hh Hl. rewrite Hcie, Hcie', (Htokens l Hl). reflexivity. }
  { intros Hnil. contradiction. }
  rewrite (bind_ok _ _ _ _ _ Hloop), (bind_ok _ _ _ _ _ Hloop'). cbn [fst].
  erewrite bind_lift_ok by (apply (permute_021_eq y); exact Hys).
  erewrite bind_lift_ok by (apply (permute_021_eq y'); exact Hys').
  erewrite (Linear_forward_ok _ _ _ [B; L])
    by first [ apply (ConvEmbedding.wf_hid2emb_weight _ Hwf)
             | apply (ConvEmbedding.wf_hid2emb_bias _ Hwf) | reflexivity ].
  erewrite (Linear_forward_ok _ _ _ [B'; L])
    by first [ apply (ConvEmbedding.wf_hid2emb_weight _ Hwf)
             | apply (ConvEmbedding.wf_hid2emb_bias _ Hwf) | reflexivity ].
  eexists _, _. split; [reflexivity|]. split; [reflexivity|].
  intros l e Hl. cbn [elem]. unfold affine. f_equal.
  apply Rsum_ext_below. intros k Hk. f_equal.
  cbn. apply Hrows; assumption.
Qed.

Lemma batch_elements_witness :
  exists y y',
    ConvEmbedding.forward (tiny_encoder false) one_token cpu_world = (Ok y, cpu_world)
    /\ ConvEmbedding.forward (tiny_encoder false) (constant [3; 1] 0%Z) cpu_world
       = (Ok y', cpu_world)
    /\ forall l e, l < 1 -> elem y [0; l; e] = elem y' [2; l; e].
Proof.
  apply (batch_elements_are_encoded_independently
           (tiny_encoder false) one_token (constant [3; 1] 0%Z) 1 3 1 0 2 cpu_world).
  - apply tiny_encoder_well_formed.
  - discriminate.
  - simpl. lia.
  - reflexivity.
  - reflexivity.
  - reflexivity.
  - lia.
  - reflexivity.
  - reflexivity.
  - lia.
  - lia.
  - intros l Hl. reflexivity.
Defined.

(** X14: a token id outside the vocabulary stops [train_epoch] at the
    embedding: the index error comes back, nothing is handed to the scorer
    or the criterion, and no random number has been drawn. *)
Theorem train_epoch_stops_at_a_bad_token :
  forall (self : GoodWillHunting.t) (src : tensor Z) (trg : strided Z)
         (scorer : option Scorer) (criterion : option Criterion)
         (idx : list nat) (w : World),
    GoodWillHunting.well_formed self ->
    Forall2 lt idx (shape src) ->
    (elem src idx < 0 \/ Z.of_nat (GoodWillHunting.vocabulary self) <= elem src idx)%Z ->
    GoodWillHunting.train_epoch self src trg scorer criterion w
    = (Raise (IndexError "index out of range in self"), w).
Proof.
  intros self src trg scorer criterion idx w (enc & Henc & Hwf & _ & _ & _ & _) Hb Hout.
  unfold GoodWillHunting.vocabulary in Hout. rewrite Henc in Hout. cbv beta iota in Hout.
  unfold GoodWillHunting.train_epoch.
  change (GoodWillHunting.__call__ self src []) with (GoodWillHunting.forward self src).
  unfold GoodWillHunting.forward. rewrite Henc. cbn [encoder_call].
  unfold bind at 1. unfold bind at 1.
  rewrite (out_of_vocabulary_token_aux enc src idx w Hwf Hb ltac:(lia)).
  reflexivity.
Qed.

Lemma train_epoch_bad_token_witness :
  GoodWillHunting.train_epoch (tiny_model true) (constant [1; 2] 7%Z)
    (contiguous (constant [1; 2] 0%Z)) (Some recording_scorer) (Some NLLLoss_sum) cpu_world
  = (Raise (IndexError "index out of range in self"), cpu_world).
Proof.
  apply (train_epoch_stops_at_a_bad_token (tiny_model true) (constant [1; 2] 7%Z)
           (contiguous (constant [1; 2] 0%Z)) (Some recording_scorer) (Some NLLLoss_sum)
           [0; 0] cpu_world).
  - apply tiny_model_well_formed.
  - repeat constructor.
  - right. vm_compute. discriminate.
Defined.
